(** * sistema_inventario.py: products and an inventory over a Python object store

    A shallow embedding of the classes [Producto] and [Inventario] of
    [sistema_inventario.py].  Python values are a small tagged union, objects
    live in a store indexed by references, and every method is a function in
    a state-and-exception monad over that store.

    Conventions of the model:
    - [str] is a sequence of code points below 256 (Latin-1); on those,
      [str.strip] and [str.lower] are the tables [isspace] and [lower_char];
    - [int] is [Z]; [float] is IEEE binary64 as [spec_float] with
      precision 53 and maximal exponent 1024;
    - [float(n)] and the implicit conversion of [x * n] for an [int] n raise
      [OverflowError] when n does not round to a finite binary64;
    - [sum] over floats depends on the interpreter: CPython up to 3.11 adds
      from the left ([sum_loop]), CPython from 3.12 on adds with Neumaier's
      compensation ([sum_neumaier]); [sum_impl] names the two. *)

From Stdlib Require Import ZArith Ascii String Bool List Lia.
From Stdlib Require Import SpecFloat.
From stdpp Require Import base option list gmap strings.

Local Open Scope string_scope.
Local Open Scope Z_scope.

(** ** Python strings *)

Module Str.

(** [str.isspace] on one code point below 256: TAB..CR, FS..US, SPACE,
    NEL (0x85) and NBSP (0xA0). *)
Definition isspace (c : ascii) : bool :=
  let n := N_of_ascii c in
  ((9 <=? n) && (n <=? 13) || (28 <=? n) && (n <=? 32)
   || (n =? 133) || (n =? 160))%N.

(** [str.lower] on one code point below 256: A..Z and the Latin-1 capitals
    (0xC0..0xDE without the multiplication sign 0xD7) move up by 32. *)
Definition lower_char (c : ascii) : ascii :=
  let n := N_of_ascii c in
  if ((65 <=? n) && (n <=? 90)
      || (192 <=? n) && (n <=? 222) && negb (n =? 215))%N
  then ascii_of_N (n + 32) else c.

Fixpoint lower (s : string) : string :=
  match s with
  | EmptyString => EmptyString
  | String c s' => String (lower_char c) (lower s')
  end.

Fixpoint lstrip (s : string) : string :=
  match s with
  | EmptyString => EmptyString
  | String c s' => if isspace c then lstrip s' else s
  end.

Fixpoint rstrip (s : string) : string :=
  match s with
  | EmptyString => EmptyString
  | String c s' =>
      match rstrip s' with
      | EmptyString => if isspace c then EmptyString else String c EmptyString
      | r => String c r
      end
  end.

(** [s.strip()] *)
Definition strip (s : string) : string := rstrip (lstrip s).

(** Truth value of a string: [not s] holds for the empty string only. *)
Definition is_empty (s : string) : bool :=
  match s with EmptyString => true | _ => false end.

End Str.

(** ** Python floats and integers *)

Module Float.

Definition prec : Z := 53.
Definition emax : Z := 1024.

Definition float := spec_float.

Definition zero : float := S754_zero false.
Definition mul : float -> float -> float := SFmul prec emax.
Definition add : float -> float -> float := SFadd prec emax.
Definition div : float -> float -> float := SFdiv prec emax.
Definition sub : float -> float -> float := SFsub prec emax.
Definition abs : float -> float := SFabs.
Definition ltb : float -> float -> bool := SFltb.
Definition leb : float -> float -> bool := SFleb.

(** Nearest binary64 (ties to even) of an integer, infinite beyond the
    range. *)
Definition of_Z (z : Z) : float := binary_normalize prec emax z 0 false.

(** The least magnitude that rounds to an infinity: halfway between the
    largest finite binary64 and [2^1024]. *)
Definition overflow_threshold : Z := 2 ^ 1024 - 2 ^ 970.

Definition is_finite (f : float) : bool :=
  match f with S754_zero _ | S754_finite _ _ _ => true | _ => false end.

End Float.

Abbreviation float := Float.float.

(** ** Values, exceptions and the object store *)

Abbreviation loc := positive.

Inductive value : Type :=
  | VNone
  | VBool (b : bool)
  | VInt (z : Z)
  | VFloat (f : float)
  | VStr (s : string)
  | VRef (l : loc).

(** The exception classes the program raises or lets through, each with its
    message. *)
Inductive exn : Type :=
  | TypeError (msg : string)
  | ValueError (msg : string)
  | KeyError (msg : string)
  | OverflowError (msg : string)
  | AttributeError (msg : string).

(** Attributes of a [Producto] instance. *)
Record Producto : Type := mkProducto {
  _nombre : string;
  _precio : float;
  _cantidad : Z
}.

Inductive object : Type :=
  | OProducto (p : Producto)
  | OInventario (_productos : loc)
  | OList (items : list value).

Abbreviation heap := (gmap loc object).

Inductive outcome (A : Type) : Type :=
  | Ret (a : A)
  | Raise (e : exn).
Arguments Ret {A} a.
Arguments Raise {A} e.

(** Computations that read and update the store and may raise; the store
    survives a raise. *)
Definition M (A : Type) : Type := heap -> outcome A * heap.

Definition ret {A} (a : A) : M A := fun h => (Ret a, h).
Definition raise {A} (e : exn) : M A := fun h => (Raise e, h).
Definition lift {A} (o : outcome A) : M A := fun h => (o, h).
Definition bind {A B} (m : M A) (k : A -> M B) : M B :=
  fun h =>
    match m h with
    | (Ret a, h') => k a h'
    | (Raise e, h') => (Raise e, h')
    end.

Notation "x <- m ;; k" := (bind m (fun x => k))
  (at level 100, m at next level, right associativity).
Notation "m ;;; k" := (bind m (fun _ => k))
  (at level 100, right associativity).

(** A new object at a reference the store does not use yet. *)
Definition alloc (o : object) : M loc :=
  fun h => let l := fresh (dom h) in (Ret l, <[l := o]> h).

(** *** Built-in operations on values *)

Definition isinstance_str (v : value) : bool :=
  match v with VStr _ => true | _ => false end.
Definition isinstance_bool (v : value) : bool :=
  match v with VBool _ => true | _ => false end.
(** [bool] is a subclass of [int]. *)
Definition isinstance_int (v : value) : bool :=
  match v with VInt _ | VBool _ => true | _ => false end.
Definition isinstance_float (v : value) : bool :=
  match v with VFloat _ => true | _ => false end.

Definition int_of_bool (b : bool) : Z := if b then 1 else 0.

(** [float(n)] for an [int] n. *)
Definition float_of_int (z : Z) : outcome float :=
  if Float.overflow_threshold <=? Z.abs z
  then Raise (OverflowError "int too large to convert to float")
  else Ret (Float.of_Z z).

(** [v < 0] *)
Definition lt_zero (v : value) : outcome bool :=
  match v with
  | VInt z => Ret (z <? 0)
  | VBool b => Ret (int_of_bool b <? 0)
  | VFloat f => Ret (Float.ltb f Float.zero)
  | _ => Raise (TypeError "'<' not supported")
  end.

(** [v <= 0] *)
Definition le_zero (v : value) : outcome bool :=
  match v with
  | VInt z => Ret (z <=? 0)
  | VBool b => Ret (int_of_bool b <=? 0)
  | VFloat f => Ret (Float.leb f Float.zero)
  | _ => Raise (TypeError "'<=' not supported")
  end.

(** [float(v)] on a number. *)
Definition py_float (v : value) : outcome float :=
  match v with
  | VFloat f => Ret f
  | VInt z => float_of_int z
  | VBool b => float_of_int (int_of_bool b)
  | _ => Raise (TypeError "float() argument must be a string or a real number")
  end.

(** [int(v)] on an integer. *)
Definition py_int (v : value) : outcome Z :=
  match v with
  | VInt z => Ret z
  | VBool b => Ret (int_of_bool b)
  | _ => Raise (TypeError "int() argument must be a string or a real number")
  end.

(** [x * n] for a [float] x and an [int] n. *)
Definition float_mul_int (x : float) (n : Z) : outcome float :=
  match float_of_int n with
  | Ret y => Ret (Float.mul x y)
  | Raise e => Raise e
  end.

(** [a + b] on numbers. *)
Definition py_add (a b : value) : outcome value :=
  match a, b with
  | VInt x, VInt y => Ret (VInt (x + y))
  | VInt x, VFloat g =>
      match float_of_int x with
      | Ret f => Ret (VFloat (Float.add f g))
      | Raise e => Raise e
      end
  | VFloat f, VInt y =>
      match float_of_int y with
      | Ret g => Ret (VFloat (Float.add f g))
      | Raise e => Raise e
      end
  | VFloat f, VFloat g => Ret (VFloat (Float.add f g))
  | _, _ => Raise (TypeError "unsupported operand type(s) for +")
  end.

(** ** class Producto *)

Definition i_acute : string := String "237" EmptyString.
Definition e_acute : string := String "233" EmptyString.
Definition u_acute : string := String "250" EmptyString.

(** [Producto(nombre, precio, cantidad)]: the checks of [__init__] in their
    order, then the new instance. *)
Definition Producto_init (nombre precio cantidad : value) : M loc :=
  match nombre with
  | VStr s =>
      let nombre_normalizado := Str.strip s in
      if Str.is_empty nombre_normalizado
      then raise (ValueError ("El nombre no puede estar vac" +:+ i_acute +:+ "o."))
      else
      if negb (isinstance_int precio || isinstance_float precio)
         || isinstance_bool precio
      then raise (TypeError ("El precio debe ser num" +:+ e_acute +:+ "rico (int o float)."))
      else
      neg <- lift (lt_zero precio) ;;
      if (neg : bool) then raise (ValueError "El precio no puede ser negativo.")
      else
      if negb (isinstance_int cantidad) || isinstance_bool cantidad
      then raise (TypeError "La cantidad debe ser un entero.")
      else
      neg' <- lift (lt_zero cantidad) ;;
      if (neg' : bool) then raise (ValueError "La cantidad no puede ser negativa.")
      else
      p <- lift (py_float precio) ;;
      c <- lift (py_int cantidad) ;;
      alloc (OProducto (mkProducto nombre_normalizado p c))
  | _ => raise (TypeError "El nombre debe ser de tipo str.")
  end.

(** The instance behind [self]. *)
Definition get_Producto (self : loc) : M Producto :=
  fun h =>
    match h !! self with
    | Some (OProducto p) => (Ret p, h)
    | _ => (Raise (AttributeError "not a Producto"), h)
    end.

Definition set_Producto (self : loc) (p : Producto) : M unit :=
  fun h => (Ret tt, <[self := OProducto p]> h).

Definition actualizar_precio (self : loc) (nuevo_precio : value) : M unit :=
  if negb (isinstance_int nuevo_precio || isinstance_float nuevo_precio)
     || isinstance_bool nuevo_precio
  then raise (TypeError ("El nuevo precio debe ser num" +:+ e_acute +:+ "rico (int o float)."))
  else
  nonpos <- lift (le_zero nuevo_precio) ;;
  if (nonpos : bool) then raise (ValueError "El nuevo precio debe ser mayor que cero.")
  else
  f <- lift (py_float nuevo_precio) ;;
  p <- get_Producto self ;;
  set_Producto self (mkProducto (_nombre p) f (_cantidad p)).

Definition actualizar_cantidad (self : loc) (nueva_cantidad : value) : M unit :=
  if negb (isinstance_int nueva_cantidad) || isinstance_bool nueva_cantidad
  then raise (TypeError "La nueva cantidad debe ser un entero.")
  else
  neg <- lift (lt_zero nueva_cantidad) ;;
  if (neg : bool) then raise (ValueError "La nueva cantidad no puede ser negativa.")
  else
  c <- lift (py_int nueva_cantidad) ;;
  p <- get_Producto self ;;
  set_Producto self (mkProducto (_nombre p) (_precio p) c).

Definition calcular_valor_total (self : loc) : M float :=
  p <- get_Producto self ;;
  lift (float_mul_int (_precio p) (_cantidad p)).

(** ** Lists in the store *)

Definition list_items (l : loc) : M (list value) :=
  fun h =>
    match h !! l with
    | Some (OList items) => (Ret items, h)
    | _ => (Raise (AttributeError "not a list"), h)
    end.

(** [l.append(v)] *)
Definition list_append (l : loc) (v : value) : M unit :=
  items <- list_items l ;;
  fun h => (Ret tt, <[l := OList (items ++ [v])]> h).

(** [list(l)]: a new list object with the same items. *)
Definition list_copy (l : loc) : M loc :=
  items <- list_items l ;;
  alloc (OList items).

(** ** class Inventario *)

(** [Inventario()]: a new empty list, then the instance that holds it. *)
Definition Inventario_init : M loc :=
  lp <- alloc (OList []) ;;
  alloc (OInventario lp).

(** [self._productos] *)
Definition get_productos (self : loc) : M loc :=
  fun h =>
    match h !! self with
    | Some (OInventario lp) => (Ret lp, h)
    | _ => (Raise (AttributeError "not an Inventario"), h)
    end.

Definition isinstance_Producto (v : value) : M bool :=
  fun h =>
    match v with
    | VRef l => match h !! l with
                | Some (OProducto _) => (Ret true, h)
                | _ => (Ret false, h)
                end
    | _ => (Ret false, h)
    end.

(** [producto.nombre] *)
Definition nombre (producto : value) : M string :=
  match producto with
  | VRef l => p <- get_Producto l ;; ret (_nombre p)
  | _ => raise (AttributeError "object has no attribute 'nombre'")
  end.

(** The loop of [buscar_producto]: the first item whose lower-cased name is
    the lower-cased key, if any. *)
Fixpoint buscar_loop (items : list value) (nombre_normalizado : string)
  : M (option value) :=
  match items with
  | [] => ret None
  | producto :: rest =>
      n <- nombre producto ;;
      if String.eqb (Str.lower n) (Str.lower nombre_normalizado)
      then ret (Some producto)
      else buscar_loop rest nombre_normalizado
  end.

Definition buscar_producto (self : loc) (nombre : value) : M value :=
  match nombre with
  | VStr s =>
      let nombre_normalizado := Str.strip s in
      if Str.is_empty nombre_normalizado
      then raise (ValueError ("El nombre de b" +:+ u_acute
                              +:+ "squeda no puede estar vac" +:+ i_acute +:+ "o."))
      else
      lp <- get_productos self ;;
      items <- list_items lp ;;
      found <- buscar_loop items nombre_normalizado ;;
      match found with
      | Some producto => ret producto
      | None => raise (KeyError ("Producto con nombre '" +:+ nombre_normalizado
                                 +:+ "' no encontrado."))
      end
  | _ => raise (TypeError ("El nombre de b" +:+ u_acute
                           +:+ "squeda debe ser de tipo str."))
  end.

Definition agregar_producto (self : loc) (producto : value) : M unit :=
  is_producto <- isinstance_Producto producto ;;
  if negb is_producto
  then raise (TypeError "Solo se pueden agregar instancias de Producto.")
  else
  n <- nombre producto ;;
  fun h =>
    match buscar_producto self (VStr n) h with
    | (Raise (KeyError _), h') =>
        (lp <- get_productos self ;; list_append lp producto) h'
    | (Raise e, h') => (Raise e, h')
    | (Ret _, h') =>
        raise (ValueError ("Ya existe un producto con el nombre '" +:+ n +:+ "'.")) h'
    end.

(** The accumulation of [sum] over the generator as CPython up to 3.11
    computes it, adding from the left: each product's value is computed
    when the sum reaches it. *)
Fixpoint sum_loop (acc : value) (items : list value) : M value :=
  match items with
  | [] => ret acc
  | VRef l :: rest =>
      v <- calcular_valor_total l ;;
      acc' <- lift (py_add acc (VFloat v)) ;;
      sum_loop acc' rest
  | _ :: _ => raise (AttributeError "object has no attribute 'calcular_valor_total'")
  end.

Definition calcular_valor_inventario (self : loc) : M value :=
  lp <- get_productos self ;;
  items <- list_items lp ;;
  sum_loop (VInt 0) items.

Definition listar_productos (self : loc) : M loc :=
  lp <- get_productos self ;;
  list_copy lp.

(** *** [sum] from CPython 3.12 on *)

(** The two ways the interpreter's [sum] adds floats. *)
Inductive sum_impl : Type :=
  | SumLeft
  | SumNeumaier.

(** One float item [x] on the running total [f_result] and the
    compensation [c]:
    [t = f_result + x]; [c += (f_result - t) + x] when
    [fabs(f_result) >= fabs(x)], else [c += (x - t) + f_result];
    [f_result = t]. *)
Definition neumaier_step (st : float * float) (x : float) : float * float :=
  let '(f_result, c) := st in
  let t := Float.add f_result x in
  (t,
   if Float.leb (Float.abs x) (Float.abs f_result)
   then Float.add c (Float.add (Float.sub f_result t) x)
   else Float.add c (Float.add (Float.sub x t) f_result)).

(** At the end of the items: [f_result + c] when [c] is not zero and is
    finite, [f_result] otherwise. *)
Definition neumaier_finish (st : float * float) : float :=
  let '(f_result, c) := st in
  match c with
  | S754_finite _ _ _ => Float.add f_result c
  | _ => f_result
  end.

Fixpoint sum_loop_neumaier (st : float * float) (items : list value)
  : M value :=
  match items with
  | [] => ret (VFloat (neumaier_finish st))
  | VRef l :: rest =>
      x <- calcular_valor_total l ;;
      sum_loop_neumaier (neumaier_step st x) rest
  | _ :: _ => raise (AttributeError "object has no attribute 'calcular_valor_total'")
  end.

(** [sum] over the generator on CPython from 3.12 on: the integer 0 for no
    item; the first value is added to the integer 0 as on every version,
    and from that float on the items are added with compensation. *)
Definition sum_neumaier (items : list value) : M value :=
  match items with
  | [] => ret (VInt 0)
  | VRef l :: rest =>
      x <- calcular_valor_total l ;;
      first <- lift (py_add (VInt 0) (VFloat x)) ;;
      match first with
      | VFloat f_result => sum_loop_neumaier (f_result, Float.zero) rest
      | _ => raise (TypeError "unsupported operand type(s) for +")
      end
  | _ :: _ => raise (AttributeError "object has no attribute 'calcular_valor_total'")
  end.

(** [calcular_valor_inventario] under either [sum]. *)
Definition calcular_valor_inventario_impl (impl : sum_impl) (self : loc)
  : M value :=
  match impl with
  | SumLeft => calcular_valor_inventario self
  | SumNeumaier =>
      lp <- get_productos self ;;
      items <- list_items lp ;;
      sum_neumaier items
  end.

(** ** The error kinds of the specification *)

Definition InvalidType {A} (o : outcome A) : Prop :=
  exists msg, o = Raise (TypeError msg).
Definition InvalidValue {A} (o : outcome A) : Prop :=
  exists msg, o = Raise (ValueError msg).
Definition NotFound {A} (o : outcome A) : Prop :=
  exists msg, o = Raise (KeyError msg).
(** The [ValueError] of [agregar_producto] for a name that is taken. *)
Definition DuplicateKey {A} (n : string) (o : outcome A) : Prop :=
  o = Raise (ValueError ("Ya existe un producto con el nombre '" +:+ n +:+ "'.")).

(** ** Vocabulary of the statements *)

(** A price [Producto] accepts and can store: a float with [0 <= f], or a
    non-negative integer that rounds to a finite float. *)
Definition precio_admisible (v : value) : bool :=
  match v with
  | VFloat f => Float.leb Float.zero f
  | VInt z => (0 <=? z) && (z <? Float.overflow_threshold)
  | _ => false
  end.

(** A number, not a boolean, that [float] converts. *)
Definition precio_convertible (v : value) : bool :=
  match v with
  | VFloat _ => true
  | VInt z => Z.abs z <? Float.overflow_threshold
  | _ => false
  end.

(** The literals of the scenarios: 1.50, 20.0, 9.99, 15.0, 60.0, 75.0. *)
Definition f_1_50 : float := S754_finite false 6755399441055744 (-52).
Definition f_20_0 : float := S754_finite false 5629499534213120 (-48).
Definition f_9_99 : float := S754_finite false 5623870034678907 (-49).
Definition f_15_0 : float := S754_finite false 8444249301319680 (-49).
Definition f_60_0 : float := S754_finite false 8444249301319680 (-47).
Definition f_75_0 : float := S754_finite false 5277655813324800 (-46).

(** What [__init__] guarantees of a name: stripped and not empty. *)
Definition Producto_ok (p : Producto) : Prop :=
  Str.strip (_nombre p) = _nombre p /\ _nombre p <> EmptyString.

(** The [Producto] a value refers to. *)
Definition producto_en (h : heap) (v : value) : option Producto :=
  match v with
  | VRef l => match h !! l with
              | Some (OProducto p) => Some p
              | _ => None
              end
  | _ => None
  end.

(** The products behind the items of a list, when all of them are
    products. *)
Definition productos_en (h : heap) (items : list value)
  : option (list Producto) :=
  mapM (producto_en h) items.

(** [self] is an [Inventario] whose list object [lp] holds [items], which
    refer to the products [ps]. *)
Definition inventario_en (h : heap) (self lp : loc) (items : list value)
    (ps : list Producto) : Prop :=
  h !! self = Some (OInventario lp) /\
  h !! lp = Some (OList items) /\
  productos_en h items = Some ps.

(** The key two names are compared by. *)
Definition clave (p : Producto) : string := Str.lower (_nombre p).

(** [price * quantity] of a product whose quantity converts. *)
Definition valor (p : Producto) : float :=
  Float.mul (_precio p) (Float.of_Z (_cantidad p)).

(** [0 + v1 + ... + vn], from the left, as Python values: the integer 0 for
    no product, a float otherwise. *)
Definition suma (ps : list Producto) : value :=
  match ps with
  | [] => VInt 0
  | _ => VFloat (fold_left Float.add (map valor ps) Float.zero)
  end.

(** The sum of the values of the products as [sum] computes it on a list of
    floats, under either implementation. *)
Definition suma_impl (impl : sum_impl) (ps : list Producto) : value :=
  match impl with
  | SumLeft => suma ps
  | SumNeumaier =>
      match ps with
      | [] => VInt 0
      | p :: rest =>
          VFloat (neumaier_finish
                    (fold_left neumaier_step (map valor rest)
                       (Float.add Float.zero (valor p), Float.zero)))
      end
  end.

(** The literals 0.1, 0.2, 0.3, 0.6 and 0.6000000000000001. *)
Definition f_0_1 : float := S754_finite false 7205759403792794 (-56).
Definition f_0_2 : float := S754_finite false 7205759403792794 (-55).
Definition f_0_3 : float := S754_finite false 5404319552844595 (-54).
Definition f_0_6 : float := S754_finite false 5404319552844595 (-53).
Definition f_0_6_up : float := S754_finite false 5404319552844596 (-53).

(** *** Sequences of calls on one inventory *)

Inductive call : Type :=
  | CallProducto (nombre precio cantidad : value)
  | CallActualizarPrecio (self : loc) (nuevo_precio : value)
  | CallActualizarCantidad (self : loc) (nueva_cantidad : value)
  | CallValorTotal (self : loc)
  | CallAgregar (producto : value)
  | CallBuscar (nombre : value)
  | CallValorInventario
  | CallListar
  | CallAppend (l : loc) (v : value).

Definition exec (inv : loc) (c : call) : M value :=
  match c with
  | CallProducto n p q => l <- Producto_init n p q ;; ret (VRef l)
  | CallActualizarPrecio self v => actualizar_precio self v ;;; ret VNone
  | CallActualizarCantidad self v => actualizar_cantidad self v ;;; ret VNone
  | CallValorTotal self => f <- calcular_valor_total self ;; ret (VFloat f)
  | CallAgregar v => agregar_producto inv v ;;; ret VNone
  | CallBuscar v => buscar_producto inv v
  | CallValorInventario => calcular_valor_inventario inv
  | CallListar => l <- listar_productos inv ;; ret (VRef l)
  | CallAppend l v => list_append l v ;;; ret VNone
  end.

(** A caller appends to the lists it was handed, never to the private list
    of the inventory. *)
Definition publico (inv : loc) (h : heap) (c : call) : Prop :=
  forall l v, c = CallAppend l v -> h !! inv <> Some (OInventario l).

(** The stores a program reaches that creates the inventory [inv] in the
    empty store and then calls constructors and methods in any order. *)
Inductive reachable (inv : loc) : heap -> Prop :=
  | reachable_init h0 :
      Inventario_init ∅ = (Ret inv, h0) -> reachable inv h0
  | reachable_call h c r h' :
      reachable inv h -> publico inv h c -> exec inv c h = (r, h') ->
      reachable inv h'.

(** Every product of the store has a name as [__init__] leaves it. *)
Definition store_ok (h : heap) : Prop :=
  forall l p, h !! l = Some (OProducto p) -> Producto_ok p.

(** The invariant of the reachable stores: [inv] is an inventory whose list
    holds products only, no two of them with the same key. *)
Definition inventario_ok (inv : loc) (h : heap) : Prop :=
  store_ok h /\
  exists lp items ps,
    inventario_en h inv lp items ps /\ NoDup (clave <$> ps).

(** Every product of [h] is a product of [h'] with the same name. *)
Definition nombres_preservados (h h' : heap) : Prop :=
  forall l p, h !! l = Some (OProducto p) ->
    exists p', h' !! l = Some (OProducto p') /\ _nombre p' = _nombre p.

(** What the checks of [__init__] and of the setters guarantee of a
    product: a stripped, non-empty name, a price that is not below 0 (a NaN
    is not) and a quantity that is not below 0. *)
Definition producto_valido (p : Producto) : Prop :=
  Producto_ok p /\
  Float.ltb (_precio p) Float.zero = false /\
  0 <= _cantidad p.

Definition store_valido (h : heap) : Prop :=
  forall l p, h !! l = Some (OProducto p) -> producto_valido p.

(** A quantity that [price * quantity] cannot convert to a float. *)
Definition cantidad_desbordada (p : Producto) : Prop :=
  Float.overflow_threshold <= Z.abs (_cantidad p).

(** *** The scenarios of the specification, as programs *)

(** Add "Widget", then search for " widget ": the product added and the
    product found. *)
Definition widget_scenario : M (value * value) :=
  inv <- Inventario_init ;;
  p <- Producto_init (VStr "Widget") (VFloat f_9_99) (VInt 1) ;;
  agregar_producto inv (VRef p) ;;;
  r <- buscar_producto inv (VStr " widget ") ;;
  ret (VRef p, r).

(** Add "Widget", then add "WIDGET". *)
Definition duplicate_scenario : M unit :=
  inv <- Inventario_init ;;
  p1 <- Producto_init (VStr "Widget") (VFloat f_9_99) (VInt 1) ;;
  agregar_producto inv (VRef p1) ;;;
  p2 <- Producto_init (VStr "WIDGET") (VFloat f_1_50) (VInt 2) ;;
  agregar_producto inv (VRef p2).

(** Add Producto("Pen", 1.50, 10) and Producto("Book", 20.0, 3), then ask
    for the value of the inventory; and the value of a new inventory; both
    under either [sum]. *)
Definition pen_book_scenario_impl (impl : sum_impl) : M value :=
  inv <- Inventario_init ;;
  pen <- Producto_init (VStr "Pen") (VFloat f_1_50) (VInt 10) ;;
  agregar_producto inv (VRef pen) ;;;
  book <- Producto_init (VStr "Book") (VFloat f_20_0) (VInt 3) ;;
  agregar_producto inv (VRef book) ;;;
  calcular_valor_inventario_impl impl inv.

Definition empty_scenario_impl (impl : sum_impl) : M value :=
  inv <- Inventario_init ;;
  calcular_valor_inventario_impl impl inv.

(** An inventory that holds a product whose quantity is [2^1024]. *)
Definition huge_quantity_setup : M loc :=
  inv <- Inventario_init ;;
  p <- Producto_init (VStr "x") (VFloat f_1_50) (VInt (2 ^ 1024)) ;;
  agregar_producto inv (VRef p) ;;;
  ret inv.

(** A store with one inventory (at 2, its list at 1) that holds the product
    "Widget" (at 3), and a product "Gadget" (at 4) that is not held. *)
Definition widget : Producto := mkProducto "Widget" f_9_99 1.
Definition gadget : Producto := mkProducto "Gadget" f_1_50 2.
Definition widget_store : heap :=
  <[4%positive := OProducto gadget]>
    (<[3%positive := OProducto widget]>
       (<[2%positive := OInventario 1%positive]>
          (<[1%positive := OList [VRef 3%positive]]> ∅))).

(** ** Strings: stripping is idempotent *)

Module StrFacts.
Import Str.

Lemma rstrip_cons_nonspace c s :
  isspace c = false -> rstrip (String c s) = String c (rstrip s).
Proof.
  intros Hc. simpl. rewrite Hc. destruct (rstrip s); reflexivity.
Qed.

Lemma rstrip_idem s : rstrip (rstrip s) = rstrip s.
Proof.
  induction s as [|c s IH]; [reflexivity|].
  simpl. destruct (rstrip s) as [|d r] eqn:E.
  - destruct (isspace c) eqn:Hc; [reflexivity|].
    simpl. rewrite Hc. reflexivity.
  - change (rstrip (String c (String d r)))
      with (match rstrip (String d r) with
            | EmptyString =>
                if isspace c then EmptyString else String c EmptyString
            | String d' r' => String c (String d' r')
            end).
    rewrite IH. reflexivity.
Qed.

(** What [lstrip] returns is empty or starts with a character that is not
    a space. *)
Lemma lstrip_head s :
  lstrip s = EmptyString \/
  exists c t, lstrip s = String c t /\ isspace c = false.
Proof.
  induction s as [|c s IH]; [left; reflexivity|].
  simpl. destruct (isspace c) eqn:Hc; [exact IH|].
  right. exists c, s. split; [reflexivity | exact Hc].
Qed.

Lemma lstrip_cons_nonspace c s :
  isspace c = false -> lstrip (String c s) = String c s.
Proof. intros Hc. simpl. rewrite Hc. reflexivity. Qed.

Lemma strip_idem s : strip (strip s) = strip s.
Proof.
  unfold strip.
  destruct (lstrip_head s) as [E | (c & t & E & Hc)]; rewrite E.
  - reflexivity.
  - rewrite (rstrip_cons_nonspace c t Hc).
    rewrite (lstrip_cons_nonspace c (rstrip t) Hc).
    rewrite (rstrip_cons_nonspace c (rstrip t) Hc).
    rewrite rstrip_idem. reflexivity.
Qed.

Lemma is_empty_true s : is_empty s = true <-> s = EmptyString.
Proof. destruct s; simpl; split; intros; congruence. Qed.

Lemma is_empty_false s : is_empty s = false <-> s <> EmptyString.
Proof. destruct s; simpl; split; intros; congruence. Qed.

End StrFacts.

(** ** Numbers *)

Arguments Float.of_Z : simpl never.
Arguments Float.mul : simpl never.
Arguments Float.add : simpl never.
Arguments Float.overflow_threshold : simpl never.

Lemma float_of_int_in_range z :
  Z.abs z < Float.overflow_threshold -> float_of_int z = Ret (Float.of_Z z).
Proof.
  intros Hz. unfold float_of_int.
  destruct (Z.leb_spec Float.overflow_threshold (Z.abs z)); [lia | reflexivity].
Qed.

Lemma float_of_int_overflow z :
  Float.overflow_threshold <= Z.abs z ->
  float_of_int z = Raise (OverflowError "int too large to convert to float").
Proof.
  intros Hz. unfold float_of_int.
  destruct (Z.leb_spec Float.overflow_threshold (Z.abs z)); [reflexivity | lia].
Qed.

(** The threshold is where rounding leaves the finite numbers. *)
Lemma overflow_threshold_sharp :
  Float.is_finite (Float.of_Z (Float.overflow_threshold - 1)) = true /\
  Float.is_finite (Float.of_Z Float.overflow_threshold) = false.
Proof. split; vm_compute; reflexivity. Qed.

Lemma overflow_threshold_pos : 0 < Float.overflow_threshold.
Proof. vm_compute. reflexivity. Qed.

(** [0 <= f] excludes [f < 0] (a NaN satisfies neither). *)
Lemma float_nonneg_not_neg (f : float) :
  Float.leb Float.zero f = true -> Float.ltb f Float.zero = false.
Proof. destruct f as [[|]|[|]| |[|] m e]; cbv; congruence. Qed.

(** ** The store *)

Lemma fresh_lookup (h : heap) : h !! fresh (dom h) = None.
Proof. apply not_elem_of_dom. apply is_fresh. Qed.

Ltac unfold_M :=
  unfold bind, ret, raise, lift, alloc, get_Producto, set_Producto,
    list_items, get_productos in *.

(** ** Producto *)

Lemma scenario_literals :
  Float.div (Float.of_Z 3) (Float.of_Z 2) = f_1_50 /\
  Float.of_Z 20 = f_20_0 /\
  Float.div (Float.of_Z 999) (Float.of_Z 100) = f_9_99 /\
  Float.of_Z 15 = f_15_0 /\ Float.of_Z 60 = f_60_0 /\ Float.of_Z 75 = f_75_0.
Proof. repeat split; vm_compute; reflexivity. Qed.

Lemma precio_admisible_checks v :
  precio_admisible v = true ->
  negb (isinstance_int v || isinstance_float v) || isinstance_bool v = false /\
  lt_zero v = Ret false /\
  exists f, py_float v = Ret f.
Proof.
  destruct v as [|b|z|f|s|l]; simpl; try discriminate; intros H.
  - apply andb_true_iff in H as [H0 H1].
    apply Z.leb_le in H0. apply Z.ltb_lt in H1.
    repeat split.
    + f_equal. apply Z.ltb_ge. exact H0.
    + exists (Float.of_Z z). apply float_of_int_in_range. lia.
  - repeat split.
    + f_equal. apply float_nonneg_not_neg. exact H.
    + exists f. reflexivity.
Qed.

(** C1, as the code has it: for a name with a non-empty strip, an admissible
    price (a float with [0 <= f], or a non-negative integer that rounds to a
    finite float) and an integer quantity [0 <= q], construction succeeds,
    stores the stripped name, [float(price)] and the quantity in a new
    object, and [calcular_valor_total] on it returns what
    [float(price) * q] returns: their float product when [q] rounds to a
    finite float. *)
Theorem Producto_init_valor_total (s : string) (precio : value) (q : Z)
    (h : heap) :
  Str.strip s <> EmptyString ->
  precio_admisible precio = true ->
  0 <= q ->
  exists (l : loc) (pf : float),
    py_float precio = Ret pf /\
    h !! l = None /\
    let h' := <[l := OProducto (mkProducto (Str.strip s) pf q)]> h in
    Producto_init (VStr s) precio (VInt q) h = (Ret l, h') /\
    calcular_valor_total l h' = (float_mul_int pf q, h') /\
    (q < Float.overflow_threshold ->
     float_mul_int pf q = Ret (Float.mul pf (Float.of_Z q))).
Proof.
  intros Hs Hp Hq.
  destruct (precio_admisible_checks precio Hp) as (Hkind & Hneg & pf & Hpf).
  exists (fresh (dom h)), pf.
  split; [exact Hpf|]. split; [apply fresh_lookup|].
  cbv zeta. split; [|split].
  - unfold Producto_init.
    apply StrFacts.is_empty_false in Hs. rewrite Hs, Hkind.
    unfold_M. rewrite Hneg, Hpf. simpl.
    destruct (Z.ltb_spec q 0); [lia | reflexivity].
  - unfold calcular_valor_total. unfold_M.
    rewrite lookup_insert_eq. reflexivity.
  - intros Hlt. unfold float_mul_int.
    rewrite float_of_int_in_range by lia. reflexivity.
Qed.

Lemma Producto_init_valor_total_witness :
  exists (l : loc) (pf : float),
    py_float (VFloat f_1_50) = Ret pf /\
    (∅ : heap) !! l = None /\
    let h' := <[l := OProducto (mkProducto (Str.strip "Pen") pf 10)]> (∅ : heap) in
    Producto_init (VStr "Pen") (VFloat f_1_50) (VInt 10) ∅ = (Ret l, h') /\
    calcular_valor_total l h' = (float_mul_int pf 10, h') /\
    (10 < Float.overflow_threshold ->
     float_mul_int pf 10 = Ret (Float.mul pf (Float.of_Z 10))).
Proof.
  apply (Producto_init_valor_total "Pen" (VFloat f_1_50) 10 ∅).
  - vm_compute. discriminate.
  - reflexivity.
  - lia.
Defined.

(** C1 as stated fails: the integer [2^1024] is a non-boolean price [>= 0],
    and construction raises [OverflowError] at [float(precio)]. *)
Lemma Producto_init_huge_price :
  Str.strip "x" <> EmptyString /\
  lt_zero (VInt (2 ^ 1024)) = Ret false /\
  isinstance_bool (VInt (2 ^ 1024)) = false /\
  0 <= 1 /\
  Producto_init (VStr "x") (VInt (2 ^ 1024)) (VInt 1) ∅
  = (Raise (OverflowError "int too large to convert to float"), ∅).
Proof.
  split; [vm_compute; discriminate|].
  repeat split; try (vm_compute; reflexivity). lia.
Qed.

(** C5: with a [str] name, a non-boolean number as price and an [int]
    quantity, construction raises [ValueError] and leaves the store alone
    as soon as the stripped name is empty, or the price is below 0, or the
    quantity is below 0. *)
Theorem Producto_init_InvalidValue (s : string) (precio : value) (q : Z)
    (h : heap) :
  isinstance_int precio || isinstance_float precio = true ->
  isinstance_bool precio = false ->
  Str.strip s = EmptyString \/ lt_zero precio = Ret true \/ q < 0 ->
  InvalidValue (fst (Producto_init (VStr s) precio (VInt q) h)) /\
  snd (Producto_init (VStr s) precio (VInt q) h) = h.
Proof.
  intros Hnum Hbool Hbad. unfold Producto_init, InvalidValue.
  destruct (Str.is_empty (Str.strip s)) eqn:Hs; [split; [eexists|]; reflexivity|].
  rewrite Hnum, Hbool. simpl negb. simpl orb. unfold_M.
  destruct precio as [|b|z|f|t|l]; try discriminate; simpl.
  - destruct (z <? 0) eqn:Hz; [split; [eexists|]; reflexivity|].
    destruct (q <? 0) eqn:Hq; [split; [eexists|]; reflexivity|].
    exfalso. destruct Hbad as [H | [H | H]].
    + apply StrFacts.is_empty_true in H. congruence.
    + simpl in H. congruence.
    + apply Z.ltb_lt in H. congruence.
  - destruct (Float.ltb f Float.zero) eqn:Hf; [split; [eexists|]; reflexivity|].
    destruct (q <? 0) eqn:Hq; [split; [eexists|]; reflexivity|].
    exfalso. destruct Hbad as [H | [H | H]].
    + apply StrFacts.is_empty_true in H. congruence.
    + simpl in H. congruence.
    + apply Z.ltb_lt in H. congruence.
Qed.

Lemma Producto_init_InvalidValue_witness :
  InvalidValue (fst (Producto_init (VStr "Pen") (VInt (-1)) (VInt 3) ∅)) /\
  snd (Producto_init (VStr "Pen") (VInt (-1)) (VInt 3) ∅) = ∅.
Proof.
  apply (Producto_init_InvalidValue "Pen" (VInt (-1)) 3 ∅).
  - reflexivity.
  - reflexivity.
  - right. left. reflexivity.
Defined.

(** C6, as the code has it: a boolean is never accepted.  Both setters raise
    [TypeError] on it.  Construction with a boolean in either place never
    returns and allocates nothing.  With a boolean price it raises
    [ValueError] when the name is a string whose strip is empty, and
    [TypeError] otherwise.  With a boolean quantity it raises [ValueError]
    when the name is a string whose strip is empty, or a string whose strip
    is not empty with a price that is a number below 0, and [TypeError]
    otherwise. *)
Theorem booleans_rejected (b : bool) :
  (forall self h, InvalidType (fst (actualizar_precio self (VBool b) h))) /\
  (forall self h, InvalidType (fst (actualizar_cantidad self (VBool b) h))) /\
  (forall nombre cantidad h,
      (forall s, nombre = VStr s -> Str.strip s <> EmptyString) ->
      InvalidType (fst (Producto_init nombre (VBool b) cantidad h))) /\
  (forall s cantidad h,
      Str.strip s = EmptyString ->
      InvalidValue (fst (Producto_init (VStr s) (VBool b) cantidad h))) /\
  (forall nombre precio h,
      (forall s, nombre = VStr s ->
                 Str.strip s <> EmptyString /\ lt_zero precio <> Ret true) ->
      InvalidType (fst (Producto_init nombre precio (VBool b) h))) /\
  (forall s precio h,
      Str.strip s = EmptyString \/
      (Str.strip s <> EmptyString /\ lt_zero precio = Ret true) ->
      InvalidValue (fst (Producto_init (VStr s) precio (VBool b) h))) /\
  (forall nombre precio cantidad h,
      precio = VBool b \/ cantidad = VBool b ->
      (InvalidType (fst (Producto_init nombre precio cantidad h)) \/
       InvalidValue (fst (Producto_init nombre precio cantidad h))) /\
      snd (Producto_init nombre precio cantidad h) = h).
Proof.
  assert (Hprecio : forall nombre cantidad h,
             snd (Producto_init nombre (VBool b) cantidad h) = h /\
             ((forall s, nombre = VStr s -> Str.strip s <> EmptyString) /\
              InvalidType (fst (Producto_init nombre (VBool b) cantidad h)) \/
              (exists s, nombre = VStr s /\ Str.strip s = EmptyString) /\
              InvalidValue (fst (Producto_init nombre (VBool b) cantidad h)))).
  { intros nombre cantidad h. unfold Producto_init, InvalidType, InvalidValue.
    destruct nombre as [| | | |s|];
      try (split; [reflexivity|]; left; split;
           [intros ? [=] | eexists; reflexivity]).
    destruct (Str.is_empty (Str.strip s)) eqn:Hs.
    - split; [reflexivity|]. right. split; [|eexists; reflexivity].
      exists s. split; [reflexivity|]. apply StrFacts.is_empty_true, Hs.
    - split; [reflexivity|]. left. split; [|simpl; eexists; reflexivity].
      intros ? [= <-]. apply StrFacts.is_empty_false, Hs. }
  assert (Hcantidad : forall nombre precio h,
             snd (Producto_init nombre precio (VBool b) h) = h /\
             ((forall s, nombre = VStr s ->
                 Str.strip s <> EmptyString /\ lt_zero precio <> Ret true) /\
              InvalidType (fst (Producto_init nombre precio (VBool b) h)) \/
              (exists s, nombre = VStr s /\
                 (Str.strip s = EmptyString \/
                  (Str.strip s <> EmptyString /\ lt_zero precio = Ret true))) /\
              InvalidValue (fst (Producto_init nombre precio (VBool b) h)))).
  { intros nombre precio h. unfold Producto_init, InvalidType, InvalidValue.
    destruct nombre as [| | | |s|];
      try (split; [reflexivity|]; left; split;
           [intros ? [=] | eexists; reflexivity]).
    destruct (Str.is_empty (Str.strip s)) eqn:Hs.
    - split; [reflexivity|]. right. split; [|eexists; reflexivity].
      exists s. split; [reflexivity|]. left. apply StrFacts.is_empty_true, Hs.
    - apply StrFacts.is_empty_false in Hs.
      destruct precio as [|b'|z|f|t|l]; simpl;
        try (split; [reflexivity|]; left; split;
             [intros ? [= <-]; split; [exact Hs | discriminate]
             | eexists; reflexivity]);
        unfold_M; simpl.
      + destruct b'; (split; [reflexivity|]; left; split;
             [intros ? [= <-]; split; [exact Hs | discriminate]
             | eexists; reflexivity]).
      + destruct (z <? 0) eqn:Hz; (split; [reflexivity|]).
        * right. split; [|eexists; reflexivity].
          exists s. split; [reflexivity|]. right. split; [exact Hs | reflexivity].
        * left. split; [|eexists; reflexivity].
          intros ? [= <-]. split; [exact Hs | discriminate].
      + destruct (Float.ltb f Float.zero) eqn:Hf; (split; [reflexivity|]).
        * right. split; [|eexists; reflexivity].
          exists s. split; [reflexivity|]. right. split; [exact Hs | reflexivity].
        * left. split; [|eexists; reflexivity].
          intros ? [= <-]. split; [exact Hs | discriminate]. }
  split; [|split; [|split; [|split; [|split; [|split]]]]].
  - intros self h. eexists. reflexivity.
  - intros self h. eexists. reflexivity.
  - intros nombre cantidad h Hn.
    destruct (Hprecio nombre cantidad h) as [_ [[_ H] | [(s & -> & Hs) _]]];
      [exact H | destruct (Hn s eq_refl Hs)].
  - intros s cantidad h Hs.
    destruct (Hprecio (VStr s) cantidad h) as [_ [[Hn _] | [_ H]]];
      [destruct (Hn s eq_refl Hs) | exact H].
  - intros nombre precio h Hn.
    destruct (Hcantidad nombre precio h)
      as [_ [[_ H] | [(s & -> & [Hs | [_ Hneg]]) _]]];
      [exact H | destruct (proj1 (Hn s eq_refl) Hs)
      | destruct (proj2 (Hn s eq_refl) Hneg)].
  - intros s precio h Hbad.
    destruct (Hcantidad (VStr s) precio h) as [_ [[Hn _] | [_ H]]]; [|exact H].
    destruct (Hn s eq_refl) as [Hs Hneg].
    destruct Hbad as [Hs' | [_ Hneg']]; [destruct (Hs Hs') | destruct (Hneg Hneg')].
  - intros nombre precio cantidad h [-> | ->].
    + destruct (Hprecio nombre cantidad h) as [Hh [[_ H] | [_ H]]]; auto.
    + destruct (Hcantidad nombre precio h) as [Hh [[_ H] | [_ H]]]; auto.
Qed.

Lemma booleans_rejected_witness :
  InvalidType (fst (Producto_init (VStr "Pen") (VBool true) (VInt 1) ∅)) /\
  InvalidValue (fst (Producto_init (VStr " ") (VBool true) (VInt 1) ∅)) /\
  InvalidType (fst (Producto_init (VStr "Pen") (VInt 2) (VBool true) ∅)) /\
  InvalidValue (fst (Producto_init (VStr "Pen") (VInt (-1)) (VBool true) ∅)).
Proof.
  destruct (booleans_rejected true) as (_ & _ & Hp & Hp' & Hc & Hc' & _).
  split; [|split; [|split]].
  - apply (Hp (VStr "Pen") (VInt 1) ∅).
    intros s Hs. injection Hs as <-. vm_compute. discriminate.
  - apply (Hp' " " (VInt 1) ∅). reflexivity.
  - apply (Hc (VStr "Pen") (VInt 2) ∅).
    intros s Hs. injection Hs as <-.
    split; [vm_compute; discriminate | simpl; discriminate].
  - apply (Hc' "Pen" (VInt (-1)) ∅).
    right. split; [vm_compute; discriminate | reflexivity].
Defined.

(** C6 as stated fails: with an empty name the name check comes first, and a
    boolean price is answered with [ValueError]. *)
Lemma Producto_init_bool_price_empty_name :
  fst (Producto_init (VStr "") (VBool true) (VInt 1) ∅)
  = Raise (ValueError ("El nombre no puede estar vac" +:+ i_acute +:+ "o.")) /\
  ~ InvalidType (fst (Producto_init (VStr "") (VBool true) (VInt 1) ∅)).
Proof.
  split; [reflexivity|]. intros [msg H]. discriminate H.
Qed.

(** C7, as the code has it: on a product, [actualizar_precio] with a
    non-boolean number raises [ValueError] and changes nothing when the
    number is [<= 0]; otherwise, when [float] converts the number, it
    returns and replaces the price by that float, name and quantity as they
    were.  The prices 0 and -5 are refused and 9.99 is stored. *)
Theorem actualizar_precio_spec (self : loc) (p : Producto) (v : value)
    (h : heap) :
  h !! self = Some (OProducto p) ->
  isinstance_int v || isinstance_float v = true ->
  isinstance_bool v = false ->
  (le_zero v = Ret true ->
   InvalidValue (fst (actualizar_precio self v h)) /\
   snd (actualizar_precio self v h) = h) /\
  (le_zero v = Ret false -> precio_convertible v = true ->
   exists f, py_float v = Ret f /\
     actualizar_precio self v h
     = (Ret tt, <[self := OProducto (mkProducto (_nombre p) f (_cantidad p))]> h)) /\
  InvalidValue (fst (actualizar_precio self (VInt 0) h)) /\
  InvalidValue (fst (actualizar_precio self (VInt (-5)) h)) /\
  actualizar_precio self (VFloat f_9_99) h
  = (Ret tt, <[self := OProducto (mkProducto (_nombre p) f_9_99 (_cantidad p))]> h).
Proof.
  intros Hself Hnum Hbool.
  split; [|split; [|split; [|split]]].
  - intros Hle. unfold actualizar_precio, InvalidValue.
    rewrite Hnum, Hbool. unfold_M. rewrite Hle. simpl.
    split; [eexists|]; reflexivity.
  - intros Hle Hconv.
    assert (Hf : exists f, py_float v = Ret f).
    { destruct v as [|b|z|f|t|l]; try discriminate.
      - exists (Float.of_Z z). simpl in *.
        apply float_of_int_in_range. apply Z.ltb_lt. exact Hconv.
      - exists f. reflexivity. }
    destruct Hf as [f Hf]. exists f. split; [exact Hf|].
    unfold actualizar_precio. rewrite Hnum, Hbool. unfold_M.
    rewrite Hle, Hf. simpl. rewrite Hself. reflexivity.
  - eexists. reflexivity.
  - eexists. reflexivity.
  - unfold actualizar_precio. unfold_M. simpl. rewrite Hself. reflexivity.
Qed.

Lemma actualizar_precio_spec_witness :
  exists f, py_float (VInt 7) = Ret f /\
    actualizar_precio 1%positive (VInt 7)
      {[ 1%positive := OProducto (mkProducto "Pen" f_1_50 10) ]}
    = (Ret tt,
       <[1%positive := OProducto (mkProducto "Pen" f 10)]>
         {[ 1%positive := OProducto (mkProducto "Pen" f_1_50 10) ]}).
Proof.
  refine (proj1 (proj2 (actualizar_precio_spec 1%positive
            (mkProducto "Pen" f_1_50 10) (VInt 7)
            {[ 1%positive := OProducto (mkProducto "Pen" f_1_50 10) ]}
            _ _ _)) _ _); reflexivity.
Defined.

(** C7 as stated fails: the integer [2^1024] is a non-boolean number above
    0, and [actualizar_precio] raises [OverflowError] instead of storing
    it. *)
Lemma actualizar_precio_huge :
  le_zero (VInt (2 ^ 1024)) = Ret false /\
  isinstance_bool (VInt (2 ^ 1024)) = false /\
  actualizar_precio 1%positive (VInt (2 ^ 1024))
    {[ 1%positive := OProducto (mkProducto "Pen" f_1_50 10) ]}
  = (Raise (OverflowError "int too large to convert to float"),
     {[ 1%positive := OProducto (mkProducto "Pen" f_1_50 10) ]}).
Proof. repeat split; vm_compute; reflexivity. Qed.

(** What a setter does to the store: nothing when it raises, one product
    rewritten with its name kept when it returns. *)
Lemma actualizar_precio_effect self v h r h' :
  actualizar_precio self v h = (r, h') ->
  (exists e, r = Raise e /\ h' = h) \/
  (exists p f, r = Ret tt /\ h !! self = Some (OProducto p) /\
     h' = <[self := OProducto (mkProducto (_nombre p) f (_cantidad p))]> h).
Proof.
  unfold actualizar_precio.
  destruct (negb (isinstance_int v || isinstance_float v) || isinstance_bool v).
  { unfold_M. intros [= <- <-]. left. eauto. }
  unfold_M.
  destruct (le_zero v) as [[|]|e]; simpl;
    try solve [intros [= <- <-]; left; eauto].
  destruct (py_float v) as [f|e]; simpl;
    try solve [intros [= <- <-]; left; eauto].
  destruct (h !! self) as [[p| |]|] eqn:Hself; simpl;
    try solve [intros [= <- <-]; left; eauto].
  intros [= <- <-]. right. exists p, f. auto.
Qed.

Lemma actualizar_cantidad_effect self v h r h' :
  actualizar_cantidad self v h = (r, h') ->
  (exists e, r = Raise e /\ h' = h) \/
  (exists p c, r = Ret tt /\ h !! self = Some (OProducto p) /\
     h' = <[self := OProducto (mkProducto (_nombre p) (_precio p) c)]> h).
Proof.
  unfold actualizar_cantidad.
  destruct (negb (isinstance_int v) || isinstance_bool v).
  { unfold_M. intros [= <- <-]. left. eauto. }
  unfold_M.
  destruct (lt_zero v) as [[|]|e]; simpl;
    try solve [intros [= <- <-]; left; eauto].
  destruct (py_int v) as [c|e]; simpl;
    try solve [intros [= <- <-]; left; eauto].
  destruct (h !! self) as [[p| |]|] eqn:Hself; simpl;
    try solve [intros [= <- <-]; left; eauto].
  intros [= <- <-]. right. exists p, c. auto.
Qed.

(** C10: on a product, a setter that raises (whatever it raises) leaves the
    whole store, so name, price and quantity, as it was; [actualizar_precio]
    that returns changed the price of that product only, and
    [actualizar_cantidad] that returns changed its quantity only. *)
Theorem setters_atomic (self : loc) (p : Producto) (v : value) (h : heap) :
  h !! self = Some (OProducto p) ->
  (forall e h', actualizar_precio self v h = (Raise e, h') -> h' = h) /\
  (forall e h', actualizar_cantidad self v h = (Raise e, h') -> h' = h) /\
  (forall h', actualizar_precio self v h = (Ret tt, h') ->
     exists f, h' = <[self := OProducto (mkProducto (_nombre p) f (_cantidad p))]> h) /\
  (forall h', actualizar_cantidad self v h = (Ret tt, h') ->
     exists c, h' = <[self := OProducto (mkProducto (_nombre p) (_precio p) c)]> h).
Proof.
  intros Hself. repeat split.
  - intros e h' H.
    destruct (actualizar_precio_effect _ _ _ _ _ H)
      as [(e' & _ & ->) | (p' & f & [=] & _)]. reflexivity.
  - intros e h' H.
    destruct (actualizar_cantidad_effect _ _ _ _ _ H)
      as [(e' & _ & ->) | (p' & f & [=] & _)]. reflexivity.
  - intros h' H.
    destruct (actualizar_precio_effect _ _ _ _ _ H)
      as [(e' & [=] & _) | (p' & f & _ & Hp' & ->)].
    rewrite Hself in Hp'. injection Hp' as <-. eauto.
  - intros h' H.
    destruct (actualizar_cantidad_effect _ _ _ _ _ H)
      as [(e' & [=] & _) | (p' & c & _ & Hp' & ->)].
    rewrite Hself in Hp'. injection Hp' as <-. eauto.
Qed.

Lemma setters_atomic_witness :
  snd (actualizar_precio 1%positive (VInt 0)
         {[ 1%positive := OProducto (mkProducto "Pen" f_1_50 10) ]})
  = {[ 1%positive := OProducto (mkProducto "Pen" f_1_50 10) ]}.
Proof.
  refine (proj1 (setters_atomic 1%positive (mkProducto "Pen" f_1_50 10) (VInt 0)
                   {[ 1%positive := OProducto (mkProducto "Pen" f_1_50 10) ]} _)
            (ValueError "El nuevo precio debe ser mayor que cero.") _ _);
    reflexivity.
Defined.

(** ** Inventario *)

Section Lookup.
Variable h : heap.

Lemma producto_en_inv v p :
  producto_en h v = Some p ->
  exists l, v = VRef l /\ h !! l = Some (OProducto p).
Proof.
  unfold producto_en. destruct v as [| | | | |l]; try discriminate.
  destruct (h !! l) as [[q| |]|] eqn:E; try discriminate.
  intros [= ->]. eauto.
Qed.

Lemma nombre_spec v p :
  producto_en h v = Some p -> nombre v h = (Ret (_nombre p), h).
Proof.
  intros (l & -> & Hl)%producto_en_inv.
  unfold nombre. unfold_M. rewrite Hl. reflexivity.
Qed.

Lemma isinstance_Producto_spec v :
  isinstance_Producto v h
  = (Ret (match producto_en h v with Some _ => true | None => false end), h).
Proof.
  unfold isinstance_Producto, producto_en.
  destruct v as [| | | | |l]; try reflexivity.
  destruct (h !! l) as [[q| |]|]; reflexivity.
Qed.

(** The loop returns the first item whose key is that of the search, or
    nothing when no product has it. *)
Lemma buscar_loop_spec key items ps :
  Forall2 (fun v p => producto_en h v = Some p) items ps ->
  (Forall (fun p => clave p <> Str.lower key) ps /\
   buscar_loop items key h = (Ret None, h)) \/
  (exists i v p,
      items !! i = Some v /\ ps !! i = Some p /\
      clave p = Str.lower key /\
      (forall j q, (j < i)%nat -> ps !! j = Some q -> clave q <> Str.lower key) /\
      buscar_loop items key h = (Ret (Some v), h)).
Proof.
  induction 1 as [|v p items ps Hv Hrest IH].
  - left. split; [constructor | reflexivity].
  - assert (Hstep : buscar_loop (v :: items) key h
                    = if String.eqb (clave p) (Str.lower key)
                      then (Ret (Some v), h)
                      else buscar_loop items key h).
    { simpl. unfold bind. rewrite (nombre_spec v p Hv). unfold clave.
      destruct (String.eqb _ _); reflexivity. }
    rewrite Hstep. clear Hstep.
    destruct (String.eqb_spec (clave p) (Str.lower key)) as [Heq | Hne].
    + right. exists 0%nat, v, p. repeat split; try done.
      intros j q Hj. lia.
    + destruct IH as [[Hall Hloop] | (i & w & q & Hi & Hq & Hkey & Hfirst & Hloop)].
      * left. split; [constructor; assumption | exact Hloop].
      * right. exists (S i), w, q. repeat split; try done.
        intros [|j] r Hj Hr.
        -- injection Hr as <-. exact Hne.
        -- apply (Hfirst j r); [lia | exact Hr].
Qed.

End Lookup.

Lemma productos_en_Forall2 h items ps :
  productos_en h items = Some ps <->
  Forall2 (fun v p => producto_en h v = Some p) items ps.
Proof. unfold productos_en. apply mapM_Some. Qed.

Lemma buscar_producto_cases h self lp items ps s :
  inventario_en h self lp items ps ->
  Str.strip s <> EmptyString ->
  (Forall (fun p => clave p <> Str.lower (Str.strip s)) ps /\
   buscar_producto self (VStr s) h
   = (Raise (KeyError ("Producto con nombre '" +:+ Str.strip s
                       +:+ "' no encontrado.")), h)) \/
  (exists i v p,
      items !! i = Some v /\ ps !! i = Some p /\
      clave p = Str.lower (Str.strip s) /\
      (forall j q, (j < i)%nat -> ps !! j = Some q ->
                   clave q <> Str.lower (Str.strip s)) /\
      buscar_producto self (VStr s) h = (Ret v, h)).
Proof.
  intros (Hself & Hlp & Hps) Hs.
  apply productos_en_Forall2 in Hps.
  apply StrFacts.is_empty_false in Hs.
  unfold buscar_producto. rewrite Hs. unfold_M. rewrite Hself, Hlp.
  destruct (buscar_loop_spec h (Str.strip s) items ps Hps)
    as [[Hall Hloop] | (i & v & p & Hi & Hp & Hkey & Hfirst & Hloop)];
    rewrite Hloop.
  - left. split; [exact Hall | reflexivity].
  - right. exists i, v, p. repeat split; done.
Qed.

(** C3: on an inventory, [buscar_producto] raises [TypeError] for an
    argument that is not a string, [ValueError] for a string whose strip is
    empty, [KeyError] when no held product has the lower-cased stripped
    argument as its lower-cased name, and otherwise returns the first item,
    in the order of the list, whose product has; the store is not changed.
    Searching " widget " after adding "Widget" returns the product added. *)
Theorem buscar_producto_spec (self lp : loc) (items : list value)
    (ps : list Producto) (h : heap) :
  inventario_en h self lp items ps ->
  (forall v, isinstance_str v = false ->
     InvalidType (fst (buscar_producto self v h)) /\
     snd (buscar_producto self v h) = h) /\
  (forall s, Str.strip s = EmptyString ->
     InvalidValue (fst (buscar_producto self (VStr s) h)) /\
     snd (buscar_producto self (VStr s) h) = h) /\
  (forall s, Str.strip s <> EmptyString ->
     Forall (fun p => clave p <> Str.lower (Str.strip s)) ps ->
     NotFound (fst (buscar_producto self (VStr s) h)) /\
     snd (buscar_producto self (VStr s) h) = h) /\
  (forall s, Str.strip s <> EmptyString ->
     Exists (fun p => clave p = Str.lower (Str.strip s)) ps ->
     exists i v p,
       items !! i = Some v /\ ps !! i = Some p /\
       clave p = Str.lower (Str.strip s) /\
       (forall j q, (j < i)%nat -> ps !! j = Some q ->
                    clave q <> Str.lower (Str.strip s)) /\
       buscar_producto self (VStr s) h = (Ret v, h)) /\
  (exists v h', widget_scenario ∅ = (Ret (v, v), h')).
Proof.
  intros Hinv. split; [|split; [|split; [|split]]].
  - intros v Hv. unfold InvalidType.
    destruct v; try discriminate; (split; [eexists|]; reflexivity).
  - intros s Hs. apply StrFacts.is_empty_true in Hs.
    unfold buscar_producto, InvalidValue. rewrite Hs.
    split; [eexists|]; reflexivity.
  - intros s Hs Hall.
    destruct (buscar_producto_cases h self lp items ps s Hinv Hs)
      as [[_ ->] | (i & v & p & _ & Hp & Hkey & _)].
    + split; [eexists|]; reflexivity.
    + exfalso. rewrite Forall_lookup in Hall. exact (Hall i p Hp Hkey).
  - intros s Hs Hex.
    destruct (buscar_producto_cases h self lp items ps s Hinv Hs)
      as [[Hall _] | Hfound]; [|exact Hfound].
    exfalso. apply Exists_exists in Hex as (p & Hin & Hkey).
    rewrite Forall_forall in Hall. exact (Hall p Hin Hkey).
  - eexists _, _. vm_compute. reflexivity.
Qed.

Lemma widget_store_inventario :
  inventario_en widget_store 2%positive 1%positive [VRef 3%positive] [widget].
Proof. repeat split. Qed.

Lemma buscar_producto_spec_witness :
  exists i v p,
    [VRef 3%positive] !! i = Some v /\ [widget] !! i = Some p /\
    clave p = Str.lower (Str.strip " widget ") /\
    (forall j q, (j < i)%nat -> [widget] !! j = Some q ->
                 clave q <> Str.lower (Str.strip " widget ")) /\
    buscar_producto 2%positive (VStr " widget ") widget_store
    = (Ret v, widget_store).
Proof.
  refine (proj1 (proj2 (proj2 (proj2
           (buscar_producto_spec 2%positive 1%positive [VRef 3%positive]
              [widget] widget_store widget_store_inventario))))
           " widget " _ _).
  - vm_compute. discriminate.
  - constructor. vm_compute. reflexivity.
Defined.

(** The three ways [agregar_producto] ends on an inventory. *)
Lemma agregar_producto_cases h self lp items ps producto :
  inventario_en h self lp items ps ->
  match producto_en h producto with
  | None =>
      agregar_producto self producto h
      = (Raise (TypeError "Solo se pueden agregar instancias de Producto."), h)
  | Some p =>
      Producto_ok p ->
      (Exists (fun q => clave q = clave p) ps /\
       agregar_producto self producto h
       = (Raise (ValueError ("Ya existe un producto con el nombre '"
                             +:+ _nombre p +:+ "'.")), h)) \/
      (Forall (fun q => clave q <> clave p) ps /\
       agregar_producto self producto h
       = (Ret tt, <[lp := OList (items ++ [producto])]> h))
  end.
Proof.
  intros Hinv. destruct (producto_en h producto) as [p|] eqn:Hp.
  - intros [Hstrip Hne].
    assert (Hrun : agregar_producto self producto h
                   = match buscar_producto self (VStr (_nombre p)) h with
                     | (Raise (KeyError _), h') =>
                         (lp <- get_productos self ;; list_append lp producto) h'
                     | (Raise e, h') => (Raise e, h')
                     | (Ret _, h') =>
                         (Raise (ValueError ("Ya existe un producto con el nombre '"
                                             +:+ _nombre p +:+ "'.")), h')
                     end).
    { unfold agregar_producto, bind.
      rewrite isinstance_Producto_spec, Hp. simpl.
      rewrite (nombre_spec h producto p Hp). reflexivity. }
    rewrite Hrun. clear Hrun.
    assert (Hs : Str.strip (_nombre p) <> EmptyString) by congruence.
    destruct (buscar_producto_cases h self lp items ps (_nombre p) Hinv Hs)
      as [[Hall ->] | (i & v & q & _ & Hq & Hkey & _ & ->)];
      rewrite Hstrip in *; fold (clave p) in *.
    + right. split; [exact Hall|].
      destruct Hinv as (Hself & Hlp & _).
      unfold list_append. unfold_M. rewrite Hself, Hlp. reflexivity.
    + left. split; [|reflexivity].
      apply Exists_exists. exists q. split; [|exact Hkey].
      apply list_elem_of_lookup. eauto.
  - unfold agregar_producto, bind.
    rewrite isinstance_Producto_spec, Hp. reflexivity.
Qed.

(** C2: on an inventory, [agregar_producto] raises [TypeError] for an
    argument that is not a [Producto]; for a product it raises the
    [ValueError] of a taken name when a held product has the same
    lower-cased name, and otherwise returns with the product appended after
    the items the list had, in their order.  A raise leaves the store as it
    was.  Adding "Widget" and then "WIDGET" raises that [ValueError]. *)
Theorem agregar_producto_spec (self lp : loc) (items : list value)
    (ps : list Producto) (producto : value) (h : heap) :
  inventario_en h self lp items ps ->
  (producto_en h producto = None ->
     InvalidType (fst (agregar_producto self producto h)) /\
     snd (agregar_producto self producto h) = h) /\
  (forall p, producto_en h producto = Some p -> Producto_ok p ->
     (Exists (fun q => clave q = clave p) ps ->
        DuplicateKey (_nombre p) (fst (agregar_producto self producto h)) /\
        snd (agregar_producto self producto h) = h) /\
     (Forall (fun q => clave q <> clave p) ps ->
        agregar_producto self producto h
        = (Ret tt, <[lp := OList (items ++ [producto])]> h))) /\
  DuplicateKey "WIDGET" (fst (duplicate_scenario ∅)).
Proof.
  intros Hinv.
  pose proof (agregar_producto_cases h self lp items ps producto Hinv) as Hcases.
  split; [|split].
  - intros Hnone. rewrite Hnone in Hcases. rewrite Hcases.
    split; [eexists|]; reflexivity.
  - intros p Hp Hok. rewrite Hp in Hcases.
    destruct (Hcases Hok) as [[Hex ->] | [Hall ->]]; split.
    + intros _. split; reflexivity.
    + intros Hall. exfalso. apply Exists_exists in Hex as (q & Hin & Hkey).
      rewrite Forall_forall in Hall. exact (Hall q Hin Hkey).
    + intros Hex. exfalso. apply Exists_exists in Hex as (q & Hin & Hkey).
      rewrite Forall_forall in Hall. exact (Hall q Hin Hkey).
    + intros _. reflexivity.
  - vm_compute. reflexivity.
Qed.

Lemma agregar_producto_spec_witness :
  agregar_producto 2%positive (VRef 4%positive) widget_store
  = (Ret tt,
     <[1%positive := OList ([VRef 3%positive] ++ [VRef 4%positive])]> widget_store).
Proof.
  refine (proj2 (proj1 (proj2
           (agregar_producto_spec 2%positive 1%positive [VRef 3%positive]
              [widget] (VRef 4%positive) widget_store widget_store_inventario))
           gadget _ _) _).
  - reflexivity.
  - split; vm_compute; [reflexivity | discriminate].
  - constructor; [|constructor]. vm_compute. discriminate.
Defined.

(** C9: [listar_productos] returns a new list object with the items of the
    inventory's list, in their order, and adds nothing else to the store.
    Appending to the returned list, or replacing that object by any other,
    leaves every other object as it was: the inventory, its own list and
    the products. *)
Theorem listar_productos_independent (self lp : loc) (items : list value)
    (h : heap) :
  h !! self = Some (OInventario lp) ->
  h !! lp = Some (OList items) ->
  exists l,
    h !! l = None /\ l <> lp /\ l <> self /\
    listar_productos self h = (Ret l, <[l := OList items]> h) /\
    (forall v,
       list_append l v (<[l := OList items]> h)
       = (Ret tt, <[l := OList (items ++ [v])]> h) /\
       (<[l := OList (items ++ [v])]> h) !! lp = Some (OList items) /\
       (<[l := OList (items ++ [v])]> h) !! self = Some (OInventario lp)) /\
    (forall o l', l' <> l -> (<[l := o]> (<[l := OList items]> h)) !! l' = h !! l').
Proof.
  intros Hself Hlp.
  exists (fresh (dom h)).
  pose proof (fresh_lookup h) as Hfresh.
  assert (Hlp' : fresh (dom h) <> lp) by congruence.
  assert (Hself' : fresh (dom h) <> self) by congruence.
  repeat split; try done.
  - unfold listar_productos, list_copy. unfold_M. rewrite Hself, Hlp. reflexivity.
  - unfold list_append. unfold_M. rewrite lookup_insert_eq.
    rewrite insert_insert_eq. reflexivity.
  - rewrite lookup_insert_ne by done. exact Hlp.
  - rewrite lookup_insert_ne by done. exact Hself.
  - intros o l' Hl'. rewrite !lookup_insert_ne by done. reflexivity.
Qed.

Lemma listar_productos_independent_witness :
  exists l,
    widget_store !! l = None /\ l <> 1%positive /\ l <> 2%positive /\
    listar_productos 2%positive widget_store
    = (Ret l, <[l := OList [VRef 3%positive]]> widget_store) /\
    (forall v,
       list_append l v (<[l := OList [VRef 3%positive]]> widget_store)
       = (Ret tt, <[l := OList ([VRef 3%positive] ++ [v])]> widget_store) /\
       (<[l := OList ([VRef 3%positive] ++ [v])]> widget_store) !! 1%positive
       = Some (OList [VRef 3%positive]) /\
       (<[l := OList ([VRef 3%positive] ++ [v])]> widget_store) !! 2%positive
       = Some (OInventario 1%positive)) /\
    (forall o l', l' <> l ->
       (<[l := o]> (<[l := OList [VRef 3%positive]]> widget_store)) !! l'
       = widget_store !! l').
Proof.
  apply (listar_productos_independent 2%positive 1%positive [VRef 3%positive]
           widget_store); reflexivity.
Defined.

Lemma calcular_valor_total_spec h l p :
  h !! l = Some (OProducto p) ->
  calcular_valor_total l h = (float_mul_int (_precio p) (_cantidad p), h).
Proof. intros Hl. unfold calcular_valor_total. unfold_M. rewrite Hl. reflexivity. Qed.

(** From a float on, the accumulation is the left fold of float addition
    over the values of the products. *)
Lemma sum_loop_floats h items ps :
  Forall2 (fun v p => producto_en h v = Some p) items ps ->
  Forall (fun p => Z.abs (_cantidad p) < Float.overflow_threshold) ps ->
  forall a,
    sum_loop (VFloat a) items h
    = (Ret (VFloat (fold_left Float.add (map valor ps) a)), h).
Proof.
  induction 1 as [|v p items ps Hv Hrest IH]; intros Hq a; [reflexivity|].
  apply Forall_cons in Hq as [Hp Hq].
  apply producto_en_inv in Hv as (l & -> & Hl).
  cbn [sum_loop]. unfold bind. rewrite (calcular_valor_total_spec h l p Hl).
  unfold float_mul_int. rewrite (float_of_int_in_range _ Hp).
  unfold lift. cbn [py_add]. fold (valor p). apply IH. exact Hq.
Qed.

Lemma sum_loop_neumaier_floats h items ps :
  Forall2 (fun v p => producto_en h v = Some p) items ps ->
  Forall (fun p => Z.abs (_cantidad p) < Float.overflow_threshold) ps ->
  forall st,
    sum_loop_neumaier st items h
    = (Ret (VFloat (neumaier_finish (fold_left neumaier_step (map valor ps) st))),
       h).
Proof.
  induction 1 as [|v p items ps Hv Hrest IH]; intros Hq st; [reflexivity|].
  apply Forall_cons in Hq as [Hp Hq].
  apply producto_en_inv in Hv as (l & -> & Hl).
  cbn [sum_loop_neumaier]. unfold bind.
  rewrite (calcular_valor_total_spec h l p Hl).
  unfold float_mul_int. rewrite (float_of_int_in_range _ Hp).
  fold (valor p). cbn [map fold_left]. apply IH. exact Hq.
Qed.

(** The two implementations of [sum] are not the same function: on the
    values 0.1, 0.2 and 0.3 adding from the left gives 0.6000000000000001
    and the compensated sum gives 0.6. *)
Lemma sum_impls_differ :
  suma_impl SumLeft
    [mkProducto "a" f_0_1 1; mkProducto "b" f_0_2 1; mkProducto "c" f_0_3 1]
  = VFloat f_0_6_up /\
  suma_impl SumNeumaier
    [mkProducto "a" f_0_1 1; mkProducto "b" f_0_2 1; mkProducto "c" f_0_3 1]
  = VFloat f_0_6.
Proof. split; vm_compute; reflexivity. Qed.

(** C8, as the code has it: when the quantity of every held product rounds
    to a finite float, the value of the inventory is returned, the store is
    not changed, and the value is the sum of the values [price * quantity]
    of the held products, in the order of the list, as the interpreter's
    [sum] computes it, under either implementation of [sum]; it is the
    integer 0 for a new inventory, and 75.0 after adding
    Producto("Pen", 1.50, 10) and Producto("Book", 20.0, 3). *)
Theorem calcular_valor_inventario_spec (self lp : loc) (items : list value)
    (ps : list Producto) (h : heap) :
  inventario_en h self lp items ps ->
  Forall (fun p => Z.abs (_cantidad p) < Float.overflow_threshold) ps ->
  forall impl : sum_impl,
    calcular_valor_inventario_impl impl self h = (Ret (suma_impl impl ps), h) /\
    suma_impl impl [] = VInt 0 /\
    fst (empty_scenario_impl impl ∅) = Ret (VInt 0) /\
    fst (pen_book_scenario_impl impl ∅) = Ret (VFloat f_75_0) /\
    Float.add f_15_0 f_60_0 = f_75_0.
Proof.
  intros (Hself & Hlp & Hps) Hq impl.
  apply productos_en_Forall2 in Hps.
  split; [|destruct impl; repeat split; vm_compute; reflexivity].
  destruct impl; cbn [calcular_valor_inventario_impl suma_impl].
  - unfold calcular_valor_inventario. unfold_M. rewrite Hself, Hlp.
    destruct Hps as [|v p items ps Hv Hrest]; [reflexivity|].
    apply Forall_cons in Hq as [Hp Hq].
    apply producto_en_inv in Hv as (l & -> & Hl).
    cbn [sum_loop]. unfold bind. rewrite (calcular_valor_total_spec h l p Hl).
    unfold float_mul_int. rewrite (float_of_int_in_range _ Hp).
    unfold lift. cbn [py_add].
    rewrite (float_of_int_in_range 0) by (pose proof overflow_threshold_pos; lia).
    fold (valor p). cbn [suma map fold_left].
    change (Float.add (Float.of_Z 0) (valor p)) with (Float.add Float.zero (valor p)).
    apply (sum_loop_floats h items ps Hrest Hq).
  - unfold_M. rewrite Hself, Hlp.
    destruct Hps as [|v p items ps Hv Hrest]; [reflexivity|].
    apply Forall_cons in Hq as [Hp Hq].
    apply producto_en_inv in Hv as (l & -> & Hl).
    cbn [sum_neumaier]. unfold bind.
    rewrite (calcular_valor_total_spec h l p Hl).
    unfold float_mul_int. rewrite (float_of_int_in_range _ Hp).
    unfold lift. cbn [py_add].
    rewrite (float_of_int_in_range 0) by (pose proof overflow_threshold_pos; lia).
    fold (valor p).
    change (Float.add (Float.of_Z 0) (valor p)) with (Float.add Float.zero (valor p)).
    apply (sum_loop_neumaier_floats h items ps Hrest Hq).
Qed.

Lemma calcular_valor_inventario_spec_witness :
  calcular_valor_inventario_impl SumNeumaier 2%positive
    (<[1%positive := OList [VRef 3%positive; VRef 4%positive]]> widget_store)
  = (Ret (suma_impl SumNeumaier [widget; gadget]),
     <[1%positive := OList [VRef 3%positive; VRef 4%positive]]> widget_store).
Proof.
  refine (proj1 (calcular_valor_inventario_spec 2%positive 1%positive
                   [VRef 3%positive; VRef 4%positive] [widget; gadget]
                   (<[1%positive := OList [VRef 3%positive; VRef 4%positive]]>
                      widget_store)
                   _ _ SumNeumaier)).
  - repeat split.
  - constructor; [vm_compute; reflexivity|].
    constructor; [vm_compute; reflexivity | constructor].
Defined.

(** C8 as stated fails: a product with quantity [2^1024] is constructed and
    added, and the value of the inventory then raises [OverflowError],
    under either implementation of [sum]. *)
Lemma calcular_valor_inventario_huge :
  exists inv h,
    huge_quantity_setup ∅ = (Ret inv, h) /\
    calcular_valor_inventario_impl SumLeft inv h
    = (Raise (OverflowError "int too large to convert to float"), h) /\
    calcular_valor_inventario_impl SumNeumaier inv h
    = (Raise (OverflowError "int too large to convert to float"), h).
Proof. eexists _, _. repeat split; vm_compute; reflexivity. Qed.

(** ** The invariant of the inventory *)

Lemma nombres_preservados_productos h h' items ps :
  nombres_preservados h h' ->
  Forall2 (fun v p => producto_en h v = Some p) items ps ->
  exists ps',
    Forall2 (fun v p => producto_en h' v = Some p) items ps' /\
    clave <$> ps' = clave <$> ps.
Proof.
  intros Hpres. induction 1 as [|v p items ps Hv Hrest (ps' & Hps' & Hkeys)].
  - exists []. split; [constructor | reflexivity].
  - apply producto_en_inv in Hv as (l & -> & Hl).
    destruct (Hpres l p Hl) as (p' & Hl' & Hname).
    exists (p' :: ps'). split.
    + constructor; [|exact Hps']. simpl. rewrite Hl'. reflexivity.
    + rewrite !fmap_cons, Hkeys. unfold clave. rewrite Hname. reflexivity.
Qed.

(** A change of the store that keeps the inventory object, its list and the
    names of the products keeps the invariant. *)
Lemma inventario_ok_frame inv h h' :
  inventario_ok inv h ->
  h' !! inv = h !! inv ->
  (forall lp, h !! inv = Some (OInventario lp) -> h' !! lp = h !! lp) ->
  nombres_preservados h h' ->
  store_ok h' ->
  inventario_ok inv h'.
Proof.
  intros (_ & lp & items & ps & (Hinv & Hlp & Hps) & Hnodup) Hinv' Hlp' Hpres Hok.
  split; [exact Hok|].
  apply productos_en_Forall2 in Hps.
  destruct (nombres_preservados_productos h h' items ps Hpres Hps)
    as (ps' & Hps' & Hkeys).
  exists lp, items, ps'. split.
  - split; [congruence|]. split; [rewrite (Hlp' lp Hinv); exact Hlp|].
    apply productos_en_Forall2. exact Hps'.
  - rewrite Hkeys. exact Hnodup.
Qed.

Lemma inventario_ok_alloc inv h l o :
  inventario_ok inv h ->
  h !! l = None ->
  (forall p, o = OProducto p -> Producto_ok p) ->
  inventario_ok inv (<[l := o]> h).
Proof.
  intros Hok Hl Ho.
  apply (inventario_ok_frame inv h); [exact Hok | | | |].
  - apply lookup_insert_ne. destruct Hok as (_ & lp & ? & ? & (Hinv & _) & _).
    intros ->. rewrite Hl in Hinv. discriminate.
  - intros lp Hinv. apply lookup_insert_ne.
    destruct Hok as (_ & lp' & ? & ? & (Hinv' & Hlp & _) & _).
    rewrite Hinv in Hinv'. injection Hinv' as <-.
    intros ->. rewrite Hl in Hlp. discriminate.
  - intros l' p Hl'. exists p. split; [|reflexivity].
    rewrite lookup_insert_ne; [exact Hl'|].
    intros ->. rewrite Hl in Hl'. discriminate.
  - intros l' p. rewrite lookup_insert. case_decide as Heq.
    + intros [= ->]. apply Ho. reflexivity.
    + apply (proj1 Hok).
Qed.

Lemma inventario_ok_set_producto inv h l p p' :
  inventario_ok inv h ->
  h !! l = Some (OProducto p) ->
  _nombre p' = _nombre p ->
  inventario_ok inv (<[l := OProducto p']> h).
Proof.
  intros Hok Hl Hname.
  assert (Hp' : Producto_ok p').
  { destruct (proj1 Hok l p Hl) as [H1 H2]. unfold Producto_ok.
    rewrite Hname. split; assumption. }
  apply (inventario_ok_frame inv h); [exact Hok | | | |].
  - apply lookup_insert_ne. destruct Hok as (_ & lp & ? & ? & (Hinv & _) & _).
    intros ->. rewrite Hl in Hinv. discriminate.
  - intros lp Hinv. apply lookup_insert_ne.
    destruct Hok as (_ & lp' & ? & ? & (Hinv' & Hlp & _) & _).
    rewrite Hinv in Hinv'. injection Hinv' as <-.
    intros ->. rewrite Hl in Hlp. discriminate.
  - intros l' q Hl'. rewrite lookup_insert. case_decide as Heq.
    + subst l'. exists p'. split; [reflexivity|]. congruence.
    + exists q. split; [exact Hl' | reflexivity].
  - intros l' q. rewrite lookup_insert. case_decide as Heq.
    + intros [= <-]. exact Hp'.
    + apply (proj1 Hok).
Qed.

Lemma inventario_ok_set_list inv h l xs xs' :
  inventario_ok inv h ->
  h !! l = Some (OList xs) ->
  h !! inv <> Some (OInventario l) ->
  inventario_ok inv (<[l := OList xs']> h).
Proof.
  intros Hok Hl Hpriv.
  apply (inventario_ok_frame inv h); [exact Hok | | | |].
  - apply lookup_insert_ne. destruct Hok as (_ & lp & ? & ? & (Hinv & _) & _).
    intros ->. rewrite Hl in Hinv. discriminate.
  - intros lp Hinv. apply lookup_insert_ne. intros ->. exact (Hpriv Hinv).
  - intros l' q Hl'. exists q. split; [|reflexivity].
    rewrite lookup_insert_ne; [exact Hl'|].
    intros ->. rewrite Hl in Hl'. discriminate.
  - intros l' q. rewrite lookup_insert. case_decide as Heq.
    + discriminate.
    + apply (proj1 Hok).
Qed.

(** *** What each call does to the store *)

Lemma Producto_init_effect n pr q h r h' :
  Producto_init n pr q h = (r, h') ->
  h' = h \/
  exists l p, h !! l = None /\ Producto_ok p /\ h' = <[l := OProducto p]> h.
Proof.
  unfold Producto_init.
  destruct n as [| | | |s|]; try (intros [= <- <-]; left; reflexivity).
  destruct (Str.is_empty (Str.strip s)) eqn:Hs;
    [intros [= <- <-]; left; reflexivity|].
  destruct (negb (isinstance_int pr || isinstance_float pr) || isinstance_bool pr);
    [intros [= <- <-]; left; reflexivity|].
  unfold_M.
  destruct (lt_zero pr) as [[|]|e]; simpl;
    try solve [intros [= <- <-]; left; reflexivity].
  destruct (negb (isinstance_int q) || isinstance_bool q);
    [intros [= <- <-]; left; reflexivity|].
  destruct (lt_zero q) as [[|]|e]; simpl;
    try solve [intros [= <- <-]; left; reflexivity].
  destruct (py_float pr) as [f|e]; simpl;
    try solve [intros [= <- <-]; left; reflexivity].
  destruct (py_int q) as [c|e]; simpl;
    try solve [intros [= <- <-]; left; reflexivity].
  intros [= <- <-]. right.
  exists (fresh (dom h)), (mkProducto (Str.strip s) f c).
  split; [apply fresh_lookup|]. split; [|reflexivity].
  split; simpl; [apply StrFacts.strip_idem | apply StrFacts.is_empty_false, Hs].
Qed.

Lemma calcular_valor_total_readonly l h : snd (calcular_valor_total l h) = h.
Proof.
  unfold calcular_valor_total. unfold_M.
  destruct (h !! l) as [[p| |]|]; reflexivity.
Qed.

Lemma nombre_readonly v h : snd (nombre v h) = h.
Proof.
  unfold nombre. destruct v as [| | | | |l]; try reflexivity.
  unfold_M. destruct (h !! l) as [[p| |]|]; reflexivity.
Qed.

Lemma buscar_loop_readonly items key h : snd (buscar_loop items key h) = h.
Proof.
  induction items as [|v items IH]; [reflexivity|].
  simpl. unfold bind.
  pose proof (nombre_readonly v h) as Hn.
  destruct (nombre v h) as [[n|e] h1]; simpl in Hn; subst h1; [|reflexivity].
  destruct (String.eqb _ _); [reflexivity | exact IH].
Qed.

Lemma buscar_producto_readonly self v h : snd (buscar_producto self v h) = h.
Proof.
  unfold buscar_producto. destruct v as [| | | |s|]; try reflexivity.
  destruct (Str.is_empty (Str.strip s)); [reflexivity|].
  unfold_M.
  destruct (h !! self) as [[| lp |]|]; try reflexivity.
  destruct (h !! lp) as [[| | items]|]; try reflexivity.
  pose proof (buscar_loop_readonly items (Str.strip s) h) as Hl.
  destruct (buscar_loop items (Str.strip s) h) as [[[w|]|e] h1];
    simpl in Hl; subst h1; reflexivity.
Qed.

Lemma sum_loop_readonly items : forall acc h, snd (sum_loop acc items h) = h.
Proof.
  induction items as [|v items IH]; intros acc h; [reflexivity|].
  destruct v as [| | | | |l]; try reflexivity.
  cbn [sum_loop]. unfold bind.
  pose proof (calcular_valor_total_readonly l h) as Hv.
  destruct (calcular_valor_total l h) as [[x|e] h1]; simpl in Hv; subst h1;
    [|reflexivity].
  unfold lift. destruct (py_add acc (VFloat x)) as [acc'|e]; [apply IH | reflexivity].
Qed.

Lemma calcular_valor_inventario_readonly self h :
  snd (calcular_valor_inventario self h) = h.
Proof.
  unfold calcular_valor_inventario. unfold_M.
  destruct (h !! self) as [[| lp |]|]; try reflexivity.
  destruct (h !! lp) as [[| | items]|]; try reflexivity.
  apply sum_loop_readonly.
Qed.

Lemma list_append_effect l v h r h' :
  list_append l v h = (r, h') ->
  h' = h \/ exists xs, h !! l = Some (OList xs) /\ h' = <[l := OList (xs ++ [v])]> h.
Proof.
  unfold list_append. unfold_M.
  destruct (h !! l) as [[| | xs]|] eqn:Hl;
    try solve [intros [= <- <-]; left; reflexivity].
  intros [= <- <-]. right. eauto.
Qed.

Lemma listar_productos_effect self h r h' :
  listar_productos self h = (r, h') ->
  h' = h \/ exists l xs, h !! l = None /\ h' = <[l := OList xs]> h.
Proof.
  unfold listar_productos, list_copy. unfold_M.
  destruct (h !! self) as [[| lp |]|];
    try solve [intros [= <- <-]; left; reflexivity].
  destruct (h !! lp) as [[| | items]|];
    try solve [intros [= <- <-]; left; reflexivity].
  intros [= <- <-]. right. exists (fresh (dom h)), items.
  split; [apply fresh_lookup | reflexivity].
Qed.

Lemma agregar_producto_preserves inv v h r h' :
  inventario_ok inv h ->
  agregar_producto inv v h = (r, h') ->
  inventario_ok inv h'.
Proof.
  intros Hok Hrun.
  destruct Hok as (Hstore & lp & items & ps & Hinv & Hnodup).
  pose proof (agregar_producto_cases h inv lp items ps v Hinv) as Hcases.
  destruct (producto_en h v) as [p|] eqn:Hp.
  - pose proof Hp as (l & -> & Hl)%producto_en_inv.
    destruct (Hcases (Hstore l p Hl)) as [[_ Heq] | [Hall Heq]];
      rewrite Heq in Hrun; injection Hrun as <- <-.
    + split; [exact Hstore|]. exists lp, items, ps. split; assumption.
    + destruct Hinv as (Hself & Hlp & Hps).
      apply productos_en_Forall2 in Hps.
      split.
      * intros l' q. rewrite lookup_insert. case_decide; [discriminate|].
        apply Hstore.
      * exists lp, (items ++ [VRef l])%list, (ps ++ [p])%list.
        split; [split; [|split]|].
        -- rewrite lookup_insert_ne; [exact Hself|].
           intros ->. rewrite Hlp in Hself. discriminate.
        -- apply lookup_insert_eq.
        -- apply productos_en_Forall2.
           assert (Hframe : forall w q, producto_en h w = Some q ->
                     producto_en (<[lp := OList (items ++ [VRef l])]> h) w = Some q).
           { intros w q (l' & -> & Hl')%producto_en_inv. simpl.
             rewrite lookup_insert_ne; [rewrite Hl'; reflexivity|].
             intros ->. rewrite Hlp in Hl'. discriminate. }
           apply Forall2_app.
           ++ eapply Forall2_impl; [exact Hps|]. exact Hframe.
           ++ constructor; [|constructor]. apply Hframe. exact Hp.
        -- rewrite fmap_app. apply NoDup_app. split; [exact Hnodup|]. split.
           ++ intros k Hk Hk'. apply list_elem_of_fmap in Hk as (q & -> & Hq).
              apply list_elem_of_singleton in Hk'.
              rewrite Forall_forall in Hall. exact (Hall q Hq Hk').
           ++ apply NoDup_singleton.
  - rewrite Hcases in Hrun. injection Hrun as <- <-.
    split; [exact Hstore|]. exists lp, items, ps. split; assumption.
Qed.

Lemma Inventario_init_ok inv h0 :
  Inventario_init ∅ = (Ret inv, h0) -> inventario_ok inv h0.
Proof.
  vm_compute. intros [= <- <-].
  split.
  - intros l p Hl.
    change (({[ 1%positive := OList []; 2%positive := OInventario 1%positive ]}
             : heap) !! l = Some (OProducto p)) in Hl.
    apply lookup_insert_Some in Hl as [[_ [=]] | [_ Hl]].
    apply lookup_singleton_Some in Hl as [_ [=]].
  - exists 1%positive, [], []. split; [repeat split | constructor].
Qed.

Lemma exec_preserves inv c h r h' :
  inventario_ok inv h ->
  publico inv h c ->
  exec inv c h = (r, h') ->
  inventario_ok inv h'.
Proof.
  intros Hok Hpub.
  destruct c as [n pr q | self v | self v | self | v | v | | | l v];
    unfold exec, bind, ret.
  - destruct (Producto_init n pr q h) as [[a|e] h1] eqn:E; intros [= <- <-];
      (destruct (Producto_init_effect _ _ _ _ _ _ E)
        as [-> | (l & p & Hl & Hp & ->)];
       [exact Hok | apply inventario_ok_alloc; [exact Hok | exact Hl |];
                    intros ? [= <-]; exact Hp]).
  - destruct (actualizar_precio self v h) as [[a|e] h1] eqn:E; intros [= <- <-];
      (destruct (actualizar_precio_effect _ _ _ _ _ E)
        as [(e' & _ & ->) | (p & f & _ & Hl & ->)];
       [exact Hok | eapply inventario_ok_set_producto; [exact Hok | exact Hl |];
                    reflexivity]).
  - destruct (actualizar_cantidad self v h) as [[a|e] h1] eqn:E; intros [= <- <-];
      (destruct (actualizar_cantidad_effect _ _ _ _ _ E)
        as [(e' & _ & ->) | (p & f & _ & Hl & ->)];
       [exact Hok | eapply inventario_ok_set_producto; [exact Hok | exact Hl |];
                    reflexivity]).
  - pose proof (calcular_valor_total_readonly self h) as Hro.
    destruct (calcular_valor_total self h) as [[a|e] h1]; simpl in Hro; subst h1;
      intros [= <- <-]; exact Hok.
  - destruct (agregar_producto inv v h) as [[a|e] h1] eqn:E; intros [= <- <-];
      exact (agregar_producto_preserves _ _ _ _ _ Hok E).
  - intros E. pose proof (buscar_producto_readonly inv v h) as Hro.
    rewrite E in Hro. simpl in Hro. subst h'. exact Hok.
  - intros E. pose proof (calcular_valor_inventario_readonly inv h) as Hro.
    rewrite E in Hro. simpl in Hro. subst h'. exact Hok.
  - destruct (listar_productos inv h) as [[a|e] h1] eqn:E; intros [= <- <-];
      (destruct (listar_productos_effect _ _ _ _ E) as [-> | (l & xs & Hl & ->)];
       [exact Hok | apply inventario_ok_alloc; [exact Hok | exact Hl |];
                    intros ? [=]]).
  - destruct (list_append l v h) as [[a|e] h1] eqn:E; intros [= <- <-];
      (destruct (list_append_effect _ _ _ _ _ E) as [-> | (xs & Hl & ->)];
       [exact Hok | eapply inventario_ok_set_list; [exact Hok | exact Hl |];
                    exact (Hpub l v eq_refl)]).
Qed.

Lemma reachable_ok inv h : reachable inv h -> inventario_ok inv h.
Proof.
  induction 1 as [h0 Hinit | h c r h' _ IH Hpub Hexec].
  - exact (Inventario_init_ok inv h0 Hinit).
  - exact (exec_preserves inv c h r h' IH Hpub Hexec).
Qed.

(** C4: in every store reached from a new inventory by constructing
    products, updating them, adding, searching, valuing and listing (and
    appending to the lists handed out), the inventory's list holds products
    only, and the products at two different positions have different
    lower-cased names. *)
Theorem nombres_unicos (inv : loc) (h : heap) :
  reachable inv h ->
  exists lp items ps,
    inventario_en h inv lp items ps /\
    forall i j p q,
      i <> j -> ps !! i = Some p -> ps !! j = Some q ->
      Str.lower (_nombre p) <> Str.lower (_nombre q).
Proof.
  intros (_ & lp & items & ps & Hinv & Hnodup)%reachable_ok.
  exists lp, items, ps. split; [exact Hinv|].
  intros i j p q Hij Hp Hq Heq. apply Hij.
  apply (NoDup_lookup (clave <$> ps) i j (clave p)); [exact Hnodup | |].
  - rewrite list_lookup_fmap, Hp. reflexivity.
  - rewrite list_lookup_fmap, Hq. simpl. unfold clave. rewrite Heq. reflexivity.
Qed.

(** A store reached by four calls: two products made, both added. *)
Lemma reachable_two_products :
  reachable 2%positive
    (<[1%positive := OList [VRef 3%positive; VRef 4%positive]]> widget_store).
Proof.
  assert (H0 : reachable 2%positive (snd (Inventario_init ∅))).
  { apply reachable_init. vm_compute. reflexivity. }
  assert (Hstep : forall c h,
             reachable 2%positive h ->
             (forall l v, c = CallAppend l v -> False) ->
             reachable 2%positive (snd (exec 2%positive c h))).
  { intros c h Hh Hc.
    apply (reachable_call _ h c (fst (exec 2%positive c h))); [exact Hh | |].
    - intros l v ->. destruct (Hc l v eq_refl).
    - apply surjective_pairing. }
  pose proof (Hstep (CallProducto (VStr "Widget") (VFloat f_9_99) (VInt 1)) _ H0
                ltac:(discriminate)) as H1.
  pose proof (Hstep (CallAgregar (VRef 3%positive)) _ H1 ltac:(discriminate)) as H2.
  pose proof (Hstep (CallProducto (VStr " Gadget ") (VFloat f_1_50) (VInt 2)) _ H2
                ltac:(discriminate)) as H3.
  pose proof (Hstep (CallAgregar (VRef 4%positive)) _ H3 ltac:(discriminate)) as H4.
  vm_compute in H4. vm_compute. exact H4.
Qed.

Lemma nombres_unicos_witness :
  exists lp items ps,
    inventario_en
      (<[1%positive := OList [VRef 3%positive; VRef 4%positive]]> widget_store)
      2%positive lp items ps /\
    forall i j p q,
      i <> j -> ps !! i = Some p -> ps !! j = Some q ->
      Str.lower (_nombre p) <> Str.lower (_nombre q).
Proof.
  apply (nombres_unicos 2%positive
           (<[1%positive := OList [VRef 3%positive; VRef 4%positive]]> widget_store)).
  exact reachable_two_products.
Defined.


(** * Further properties of the code *)

(** ** Producto: the remaining checks *)

(** [actualizar_cantidad] on a product: [TypeError] for anything that is not
    an [int] (a float such as 3.0 and a boolean included), [ValueError] for
    a negative integer, both without touching the store; every integer from
    0 on, of any size, is stored, name and price kept. *)
Theorem actualizar_cantidad_spec (self : loc) (p : Producto) (v : value)
    (h : heap) :
  h !! self = Some (OProducto p) ->
  (isinstance_int v = false \/ isinstance_bool v = true ->
     InvalidType (fst (actualizar_cantidad self v h)) /\
     snd (actualizar_cantidad self v h) = h) /\
  (forall n, v = VInt n -> n < 0 ->
     InvalidValue (fst (actualizar_cantidad self v h)) /\
     snd (actualizar_cantidad self v h) = h) /\
  (forall n, v = VInt n -> 0 <= n ->
     actualizar_cantidad self v h
     = (Ret tt, <[self := OProducto (mkProducto (_nombre p) (_precio p) n)]> h)).
Proof.
  intros Hself. split; [|split].
  - intros Hkind. unfold actualizar_cantidad, InvalidType.
    assert (Hg : negb (isinstance_int v) || isinstance_bool v = true).
    { destruct Hkind as [-> | ->]; [reflexivity | apply orb_true_r]. }
    rewrite Hg. split; [eexists|]; reflexivity.
  - intros n -> Hn. unfold actualizar_cantidad, InvalidValue. unfold_M. simpl.
    destruct (Z.ltb_spec n 0); [|lia]. split; [eexists|]; reflexivity.
  - intros n -> Hn. unfold actualizar_cantidad. unfold_M. simpl.
    destruct (Z.ltb_spec n 0); [lia|]. rewrite Hself. reflexivity.
Qed.

Lemma actualizar_cantidad_spec_witness :
  actualizar_cantidad 4%positive (VInt (2 ^ 1024)) widget_store
  = (Ret tt,
     <[4%positive := OProducto (mkProducto (_nombre gadget) (_precio gadget)
                                  (2 ^ 1024))]> widget_store).
Proof.
  refine (proj2 (proj2 (actualizar_cantidad_spec 4%positive gadget
                          (VInt (2 ^ 1024)) widget_store _))
            (2 ^ 1024) _ _).
  - reflexivity.
  - reflexivity.
  - lia.
Defined.

(** [Producto(...)] raises [TypeError], and allocates nothing, in three
    cases, checked in this order: the name is not a [str]; the name is
    accepted and the price is not an [int] or a [float]; name and price are
    accepted and the quantity is not an [int] (a float such as 3.0
    included). *)
Theorem Producto_init_InvalidType (nombre precio cantidad : value) (h : heap) :
  isinstance_str nombre = false \/
  ((exists s, nombre = VStr s /\ Str.strip s <> EmptyString) /\
   (isinstance_int precio || isinstance_float precio = false \/
    (lt_zero precio = Ret false /\ isinstance_int cantidad = false))) ->
  InvalidType (fst (Producto_init nombre precio cantidad h)) /\
  snd (Producto_init nombre precio cantidad h) = h.
Proof.
  unfold InvalidType.
  intros [Hn | [(s & -> & Hs) Hrest]].
  - destruct nombre; try discriminate; (split; [eexists|]; reflexivity).
  - apply StrFacts.is_empty_false in Hs. unfold Producto_init. rewrite Hs.
    destruct Hrest as [Hp | [Hp Hc]].
    + rewrite Hp. split; [eexists|]; reflexivity.
    + destruct (negb (isinstance_int precio || isinstance_float precio)
                || isinstance_bool precio);
        [split; [eexists|]; reflexivity|].
      unfold_M. rewrite Hp, Hc. split; [eexists|]; reflexivity.
Qed.

Lemma Producto_init_InvalidType_witness :
  InvalidType (fst (Producto_init (VStr "Pen") (VInt 2) (VFloat f_20_0) ∅)) /\
  snd (Producto_init (VStr "Pen") (VInt 2) (VFloat f_20_0) ∅) = ∅.
Proof.
  apply (Producto_init_InvalidType (VStr "Pen") (VInt 2) (VFloat f_20_0) ∅).
  right. split.
  - exists "Pen". split; [reflexivity | vm_compute; discriminate].
  - right. split; reflexivity.
Defined.

(** ** Products stay valid *)

(** Rounding a positive integer never gives a float below 0. *)
Lemma binary_round_not_neg m e :
  SFltb (binary_round Float.prec Float.emax false m e) Float.zero = false.
Proof.
  unfold binary_round.
  destruct (shl_align m e _) as [mz ez].
  unfold binary_round_aux.
  destruct (shr_fexp _ _ _ _ _) as [mrs e'].
  destruct (shr_fexp _ _ _ _ _) as [mrs' e''].
  destruct (shr_m mrs') as [|k|k]; [reflexivity | | reflexivity].
  destruct (Z.leb e'' _); reflexivity.
Qed.

Lemma of_Z_not_neg z :
  0 <= z -> Float.ltb (Float.of_Z z) Float.zero = false.
Proof.
  intros Hz. unfold Float.of_Z, Float.ltb, binary_normalize.
  destruct z as [|m|m]; [reflexivity | apply binary_round_not_neg | lia].
Qed.

Lemma float_not_le_not_lt (f : float) :
  Float.leb f Float.zero = false -> Float.ltb f Float.zero = false.
Proof. destruct f as [[|]|[|]| |[|] m e]; cbv; congruence. Qed.

(** What [float] returns for a number that passed a sign check. *)
Lemma py_float_not_neg v f :
  isinstance_bool v = false ->
  lt_zero v = Ret false ->
  py_float v = Ret f ->
  Float.ltb f Float.zero = false.
Proof.
  destruct v as [|b|z|g|s|l]; try discriminate; simpl; intros _ [= Hneg].
  - unfold float_of_int. destruct (_ <=? _); [discriminate|].
    intros [= <-]. apply of_Z_not_neg. apply Z.ltb_ge. exact Hneg.
  - intros [= <-]. exact Hneg.
Qed.

Lemma Producto_init_valido n pr q h r h' :
  Producto_init n pr q h = (r, h') ->
  h' = h \/
  exists l p, r = Ret l /\ h !! l = None /\ producto_valido p /\
              h' = <[l := OProducto p]> h.
Proof.
  unfold Producto_init.
  destruct n as [| | | |s|]; try (intros [= <- <-]; left; reflexivity).
  destruct (Str.is_empty (Str.strip s)) eqn:Hs;
    [intros [= <- <-]; left; reflexivity|].
  destruct (negb (isinstance_int pr || isinstance_float pr) || isinstance_bool pr)
    eqn:Hkind; [intros [= <- <-]; left; reflexivity|].
  apply orb_false_iff in Hkind as [_ Hbool].
  unfold_M.
  destruct (lt_zero pr) as [[|]|e] eqn:Hneg; simpl;
    try solve [intros [= <- <-]; left; reflexivity].
  destruct (negb (isinstance_int q) || isinstance_bool q) eqn:Hkq;
    [intros [= <- <-]; left; reflexivity|].
  apply orb_false_iff in Hkq as [_ Hboolq].
  destruct (lt_zero q) as [[|]|e] eqn:Hnegq; simpl;
    try solve [intros [= <- <-]; left; reflexivity].
  destruct (py_float pr) as [f|e] eqn:Hf; simpl;
    try solve [intros [= <- <-]; left; reflexivity].
  destruct (py_int q) as [c|e] eqn:Hc; simpl;
    try solve [intros [= <- <-]; left; reflexivity].
  intros [= <- <-]. right.
  exists (fresh (dom h)), (mkProducto (Str.strip s) f c).
  split; [reflexivity|]. split; [apply fresh_lookup|]. split; [|reflexivity].
  split; [|split]; simpl.
  - split; simpl; [apply StrFacts.strip_idem | apply StrFacts.is_empty_false, Hs].
  - exact (py_float_not_neg pr f Hbool Hneg Hf).
  - destruct q as [|b|z| | |]; try discriminate.
    simpl in Hnegq, Hc. injection Hnegq as Hz. injection Hc as <-.
    apply Z.ltb_ge. exact Hz.
Qed.

Lemma actualizar_precio_valido self v h r h' :
  actualizar_precio self v h = (r, h') ->
  h' = h \/
  exists p f, h !! self = Some (OProducto p) /\
    Float.ltb f Float.zero = false /\
    h' = <[self := OProducto (mkProducto (_nombre p) f (_cantidad p))]> h.
Proof.
  unfold actualizar_precio.
  destruct (negb (isinstance_int v || isinstance_float v) || isinstance_bool v)
    eqn:Hkind; [unfold_M; intros [= <- <-]; left; reflexivity|].
  apply orb_false_iff in Hkind as [_ Hbool].
  unfold_M.
  destruct (le_zero v) as [[|]|e] eqn:Hle; simpl;
    try solve [intros [= <- <-]; left; reflexivity].
  destruct (py_float v) as [f|e] eqn:Hf; simpl;
    try solve [intros [= <- <-]; left; reflexivity].
  destruct (h !! self) as [[p| |]|] eqn:Hself; simpl;
    try solve [intros [= <- <-]; left; reflexivity].
  intros [= <- <-]. right. exists p, f. split; [reflexivity|]. split; [|reflexivity].
  destruct v as [|b|z|g|s|l]; try discriminate; simpl in Hle, Hf.
  - injection Hle as Hz. revert Hf. unfold float_of_int.
    destruct (Float.overflow_threshold <=? Z.abs z); [discriminate|].
    intros [= <-]. apply of_Z_not_neg. apply Z.leb_gt in Hz. lia.
  - injection Hle as Hg. injection Hf as <-. apply float_not_le_not_lt, Hg.
Qed.

Lemma actualizar_cantidad_valido self v h r h' :
  actualizar_cantidad self v h = (r, h') ->
  h' = h \/
  exists p c, h !! self = Some (OProducto p) /\ 0 <= c /\
    h' = <[self := OProducto (mkProducto (_nombre p) (_precio p) c)]> h.
Proof.
  unfold actualizar_cantidad.
  destruct (negb (isinstance_int v) || isinstance_bool v) eqn:Hkind;
    [unfold_M; intros [= <- <-]; left; reflexivity|].
  apply orb_false_iff in Hkind as [_ Hbool].
  unfold_M.
  destruct (lt_zero v) as [[|]|e] eqn:Hneg; simpl;
    try solve [intros [= <- <-]; left; reflexivity].
  destruct (py_int v) as [c|e] eqn:Hc; simpl;
    try solve [intros [= <- <-]; left; reflexivity].
  destruct (h !! self) as [[p| |]|] eqn:Hself; simpl;
    try solve [intros [= <- <-]; left; reflexivity].
  intros [= <- <-]. right. exists p, c. split; [reflexivity|]. split; [|reflexivity].
  destruct v as [|b|z| | |]; try discriminate.
  simpl in Hneg, Hc. injection Hneg as Hz. injection Hc as <-.
  apply Z.ltb_ge. exact Hz.
Qed.

Lemma agregar_producto_unfold self v h p :
  producto_en h v = Some p ->
  agregar_producto self v h
  = match buscar_producto self (VStr (_nombre p)) h with
    | (Raise (KeyError _), h') =>
        (lp <- get_productos self ;; list_append lp v) h'
    | (Raise e, h') => (Raise e, h')
    | (Ret _, h') =>
        (Raise (ValueError ("Ya existe un producto con el nombre '"
                            +:+ _nombre p +:+ "'.")), h')
    end.
Proof.
  intros Hp. unfold agregar_producto, bind.
  rewrite isinstance_Producto_spec, Hp. simpl.
  rewrite (nombre_spec h v p Hp). reflexivity.
Qed.

(** [agregar_producto] on any store: nothing, or one item more at the end of
    a list. *)
Lemma agregar_producto_effect self v h r h' :
  agregar_producto self v h = (r, h') ->
  h' = h \/
  exists lp xs p, h !! self = Some (OInventario lp) /\ h !! lp = Some (OList xs) /\
    producto_en h v = Some p /\
    r = Ret tt /\ h' = <[lp := OList (xs ++ [v])]> h.
Proof.
  destruct (producto_en h v) as [p|] eqn:Hp.
  - rewrite (agregar_producto_unfold self v h p Hp).
    pose proof (buscar_producto_readonly self (VStr (_nombre p)) h) as Hro.
    destruct (buscar_producto self (VStr (_nombre p)) h) as [[w|e] h1];
      simpl in Hro; subst h1.
    + intros [= <- <-]. left. reflexivity.
    + destruct e; try (intros [= <- <-]; left; reflexivity).
      unfold list_append. unfold_M.
      destruct (h !! self) as [[| lp |]|] eqn:Hself;
        try (intros [= <- <-]; left; reflexivity).
      destruct (h !! lp) as [[| | xs]|] eqn:Hlp;
        try (intros [= <- <-]; left; reflexivity).
      intros [= <- <-]. right. exists lp, xs, p. auto.
  - unfold agregar_producto, bind. rewrite isinstance_Producto_spec, Hp.
    intros [= <- <-]. left. reflexivity.
Qed.


(** Every call does one of four things to the store: nothing; a new object
    (a valid product or a list); one product rewritten by a setter, its name
    kept; one item more at the end of a list, which is the inventory's own
    list only for [agregar_producto] of a product. *)
Lemma exec_effect inv c h :
  let h' := snd (exec inv c h) in
  h' = h \/
  (exists l o, h !! l = None /\ h' = <[l := o]> h /\
     match o with
     | OProducto p => producto_valido p
     | OList _ => True
     | OInventario _ => False
     end) \/
  (exists l p p', h !! l = Some (OProducto p) /\ h' = <[l := OProducto p']> h /\
     ((exists v f, c = CallActualizarPrecio l v /\
         Float.ltb f Float.zero = false /\
         p' = mkProducto (_nombre p) f (_cantidad p)) \/
      (exists v n, c = CallActualizarCantidad l v /\ 0 <= n /\
         p' = mkProducto (_nombre p) (_precio p) n))) \/
  (exists l xs v, h !! l = Some (OList xs) /\ h' = <[l := OList (xs ++ [v])]> h /\
     (c = CallAppend l v \/
      (c = CallAgregar v /\ h !! inv = Some (OInventario l) /\
       is_Some (producto_en h v)))).
Proof.
  cbv zeta.
  destruct c as [n pr q | self v | self v | self | v | v | | | l v];
    unfold exec, bind, ret.
  - destruct (Producto_init n pr q h) as [[a|e] h1] eqn:E; simpl;
      (destruct (Producto_init_valido _ _ _ _ _ _ E)
        as [-> | (l & p & _ & Hl & Hp & ->)];
       [left; reflexivity | right; left; exists l, (OProducto p); auto]).
  - destruct (actualizar_precio self v h) as [[a|e] h1] eqn:E; simpl;
      (destruct (actualizar_precio_valido _ _ _ _ _ E)
        as [-> | (p & f & Hl & Hf & ->)];
       [left; reflexivity | right; right; left]);
      (eexists self, p, _; split; [exact Hl|]; split; [reflexivity|];
       left; exists v, f; auto).
  - destruct (actualizar_cantidad self v h) as [[a|e] h1] eqn:E; simpl;
      (destruct (actualizar_cantidad_valido _ _ _ _ _ E)
        as [-> | (p & n & Hl & Hn & ->)];
       [left; reflexivity | right; right; left]);
      (eexists self, p, _; split; [exact Hl|]; split; [reflexivity|];
       right; exists v, n; auto).
  - pose proof (calcular_valor_total_readonly self h) as Hro.
    destruct (calcular_valor_total self h) as [[a|e] h1]; simpl in *; left; exact Hro.
  - destruct (agregar_producto inv v h) as [[a|e] h1] eqn:E; simpl;
      (destruct (agregar_producto_effect _ _ _ _ _ E)
        as [-> | (lp & xs & p & Hinv & Hlp & Hp & _ & ->)];
       [left; reflexivity | right; right; right]);
      (exists lp, xs, v; split; [exact Hlp|]; split; [reflexivity|];
       right; rewrite Hp; eauto).
  - left. apply buscar_producto_readonly.
  - left. apply calcular_valor_inventario_readonly.
  - destruct (listar_productos inv h) as [[a|e] h1] eqn:E; simpl;
      (destruct (listar_productos_effect _ _ _ _ E) as [-> | (l & xs & Hl & ->)];
       [left; reflexivity | right; left; exists l, (OList xs); auto]).
  - destruct (list_append l v h) as [[a|e] h1] eqn:E; simpl;
      (destruct (list_append_effect _ _ _ _ _ E) as [-> | (xs & Hl & ->)];
       [left; reflexivity | right; right; right; exists l, xs, v; auto]).
Qed.

Lemma exec_store_valido inv c h :
  store_valido h -> store_valido (snd (exec inv c h)).
Proof.
  intros Hok.
  destruct (exec_effect inv c h)
    as [-> | [(l & o & Hl & -> & Ho) | [(l & p & p' & Hl & -> & Hp') |
             (l & xs & v & Hl & -> & _)]]].
  - exact Hok.
  - intros l' q. rewrite lookup_insert. case_decide; [|apply Hok].
    intros [= ->]. exact Ho.
  - intros l' q. rewrite lookup_insert. case_decide; [|apply Hok].
    intros [= <-]. destruct (Hok l p Hl) as (Hname & Hprice & Hqty).
    destruct Hp' as [(v & f & _ & Hf & ->) | (v & n & _ & Hn & ->)];
      (split; [exact Hname | split; assumption]).
  - intros l' q. rewrite lookup_insert. case_decide; [discriminate | apply Hok].
Qed.

(** In every store a program reaches, every product has a stripped,
    non-empty name, a price that is not below 0 and a quantity that is not
    below 0: the constructor establishes it and both setters keep it. *)
Theorem productos_validos (inv : loc) (h : heap) :
  reachable inv h ->
  forall l p, h !! l = Some (OProducto p) ->
    Str.strip (_nombre p) = _nombre p /\ _nombre p <> EmptyString /\
    Float.ltb (_precio p) Float.zero = false /\
    0 <= _cantidad p.
Proof.
  intros Hreach.
  assert (Hok : store_valido h).
  { induction Hreach as [h0 Hinit | h c r h' _ IH _ Hexec].
    - intros l p Hl. revert Hinit Hl. unfold Inventario_init. unfold_M.
      intros [= <- <-]. rewrite lookup_insert. case_decide; [discriminate|].
      rewrite lookup_insert. case_decide; [discriminate|].
      rewrite lookup_empty. discriminate.
    - pose proof (exec_store_valido inv c h IH) as H'.
      rewrite Hexec in H'. exact H'. }
  intros l p Hl. destruct (Hok l p Hl) as ((H1 & H2) & H3 & H4). auto.
Qed.

Lemma productos_validos_witness :
  Str.strip (_nombre gadget) = _nombre gadget /\ _nombre gadget <> EmptyString /\
  Float.ltb (_precio gadget) Float.zero = false /\
  0 <= _cantidad gadget.
Proof.
  apply (productos_validos 2%positive
           (<[1%positive := OList [VRef 3%positive; VRef 4%positive]]> widget_store)
           reachable_two_products 4%positive gadget).
  reflexivity.
Defined.

(** No call removes a product or changes its name: after any call, every
    product of the store is still there under the same reference with the
    same name, and it is the very same product unless the call was a setter
    on that reference. *)
Theorem productos_persisten (inv : loc) (c : call) (h : heap) :
  forall l p, h !! l = Some (OProducto p) ->
    exists p', snd (exec inv c h) !! l = Some (OProducto p') /\
      _nombre p' = _nombre p /\
      ((forall v, c <> CallActualizarPrecio l v) ->
       (forall v, c <> CallActualizarCantidad l v) -> p' = p).
Proof.
  intros l p Hl.
  destruct (exec_effect inv c h)
    as [-> | [(l' & o & Hl' & -> & Ho) | [(l' & q & q' & Hl' & -> & Hq') |
             (l' & xs & v & Hl' & -> & _)]]].
  - exists p. auto.
  - exists p. split; [|auto]. rewrite lookup_insert_ne; [exact Hl|].
    intros ->. rewrite Hl in Hl'. discriminate.
  - destruct (decide (l' = l)) as [-> | Hne].
    + rewrite Hl in Hl'. injection Hl' as <-.
      exists q'. split; [apply lookup_insert_eq|].
      destruct Hq' as [(v & f & -> & _ & ->) | (v & n & -> & _ & ->)];
        (split; [reflexivity|]); intros H1 H2;
        [destruct (H1 v eq_refl) | destruct (H2 v eq_refl)].
    + exists p. split; [|auto]. rewrite lookup_insert_ne by exact Hne. exact Hl.
  - exists p. split; [|auto]. rewrite lookup_insert_ne; [exact Hl|].
    intros ->. rewrite Hl in Hl'. discriminate.
Qed.

Lemma productos_persisten_witness :
  exists p',
    snd (exec 2%positive (CallActualizarPrecio 3%positive (VInt 7)) widget_store)
      !! 3%positive = Some (OProducto p') /\
    _nombre p' = _nombre widget /\
    ((forall v, CallActualizarPrecio 3%positive (VInt 7)
                <> CallActualizarPrecio 3%positive v) ->
     (forall v, CallActualizarPrecio 3%positive (VInt 7)
                <> CallActualizarCantidad 3%positive v) -> p' = widget).
Proof.
  apply (productos_persisten 2%positive
           (CallActualizarPrecio 3%positive (VInt 7)) widget_store 3%positive widget).
  reflexivity.
Defined.

(** The list of an inventory changes in one way only: a successful
    [agregar_producto] of a product puts that product after the items it
    had.  Every other call, and a caller appending to lists it was handed,
    leaves the inventory with the same list object and the same items in
    the same order. *)
Theorem lista_solo_crece (inv lp : loc) (items : list value)
    (ps : list Producto) (c : call) (h : heap) :
  inventario_en h inv lp items ps ->
  publico inv h c ->
  snd (exec inv c h) !! inv = Some (OInventario lp) /\
  (snd (exec inv c h) !! lp = Some (OList items) \/
   exists v p, c = CallAgregar v /\ producto_en h v = Some p /\
     snd (exec inv c h) !! lp = Some (OList (items ++ [v]))).
Proof.
  intros (Hinv & Hlp & _) Hpub.
  destruct (exec_effect inv c h)
    as [-> | [(l & o & Hl & -> & Ho) | [(l & q & q' & Hl & -> & Hq') |
             (l & xs & v & Hl & -> & Hc)]]].
  - auto.
  - split; [|left]; (rewrite lookup_insert_ne; [assumption|]);
      intros ->; congruence.
  - split; [|left]; (rewrite lookup_insert_ne; [assumption|]);
      intros ->; congruence.
  - assert (Hne : l <> inv) by (intros ->; congruence).
    split; [rewrite lookup_insert_ne by exact Hne; exact Hinv|].
    destruct Hc as [-> | (-> & Hinv' & [p Hp])].
    + left. rewrite lookup_insert_ne; [exact Hlp|].
      intros ->. exact (Hpub lp v eq_refl Hinv).
    + right. rewrite Hinv in Hinv'. injection Hinv' as <-.
      rewrite Hlp in Hl. injection Hl as <-.
      exists v, p. split; [reflexivity|]. split; [exact Hp|].
      apply lookup_insert_eq.
Qed.

Lemma lista_solo_crece_witness :
  snd (exec 2%positive (CallAgregar (VRef 4%positive)) widget_store) !! 2%positive
  = Some (OInventario 1%positive) /\
  (snd (exec 2%positive (CallAgregar (VRef 4%positive)) widget_store) !! 1%positive
   = Some (OList [VRef 3%positive]) \/
   exists v p, CallAgregar (VRef 4%positive) = CallAgregar v /\
     producto_en widget_store v = Some p /\
     snd (exec 2%positive (CallAgregar (VRef 4%positive)) widget_store) !! 1%positive
     = Some (OList ([VRef 3%positive] ++ [v]))).
Proof.
  apply (lista_solo_crece 2%positive 1%positive [VRef 3%positive] [widget]
           (CallAgregar (VRef 4%positive)) widget_store widget_store_inventario).
  intros l v H. discriminate H.
Defined.


(** ** Searching *)

Lemma lower_empty s : Str.lower s = EmptyString -> s = EmptyString.
Proof. destruct s; [reflexivity | discriminate]. Qed.

(** The list of an inventory after a product was appended. *)
Lemma inventario_en_append h self lp items ps l p :
  inventario_en h self lp items ps ->
  h !! l = Some (OProducto p) ->
  inventario_en (<[lp := OList (items ++ [VRef l])]> h) self lp
    (items ++ [VRef l]) (ps ++ [p]).
Proof.
  intros (Hself & Hlp & Hps) Hl.
  apply productos_en_Forall2 in Hps.
  assert (Hframe : forall w q, producto_en h w = Some q ->
            producto_en (<[lp := OList (items ++ [VRef l])]> h) w = Some q).
  { intros w q (l' & -> & Hl')%producto_en_inv. simpl.
    rewrite lookup_insert_ne; [rewrite Hl'; reflexivity|].
    intros ->. rewrite Hlp in Hl'. discriminate. }
  split; [|split].
  - rewrite lookup_insert_ne; [exact Hself|].
    intros ->. rewrite Hlp in Hself. discriminate.
  - apply lookup_insert_eq.
  - apply productos_en_Forall2. apply Forall2_app.
    + eapply Forall2_impl; [exact Hps|]. exact Hframe.
    + constructor; [|constructor]. apply Hframe. simpl. rewrite Hl. reflexivity.
Qed.

(** Add, then find: after [agregar_producto] accepted a product, searching
    any spelling of its name (other case, spaces around) returns that very
    reference. *)
Theorem agregar_luego_buscar (self lp : loc) (items : list value)
    (ps : list Producto) (l : loc) (p : Producto) (s : string) (h : heap) :
  inventario_en h self lp items ps ->
  h !! l = Some (OProducto p) ->
  Producto_ok p ->
  Forall (fun q => clave q <> clave p) ps ->
  Str.lower (Str.strip s) = clave p ->
  buscar_producto self (VStr s) (snd (agregar_producto self (VRef l) h))
  = (Ret (VRef l), snd (agregar_producto self (VRef l) h)).
Proof.
  intros Hinv Hl Hok Hall Hs.
  pose proof (agregar_producto_cases h self lp items ps (VRef l) Hinv) as Hadd.
  simpl in Hadd. rewrite Hl in Hadd.
  destruct (Hadd Hok) as [[Hex _] | [_ ->]].
  { exfalso. apply Exists_exists in Hex as (q & Hin & Hkey).
    rewrite Forall_forall in Hall. exact (Hall q Hin Hkey). }
  simpl snd.
  pose proof (inventario_en_append h self lp items ps l p Hinv Hl) as Hinv'.
  assert (Hne : Str.strip s <> EmptyString).
  { intros Hempty. rewrite Hempty in Hs. symmetry in Hs.
    apply lower_empty in Hs. exact (proj2 Hok Hs). }
  assert (Hlen : length items = length ps).
  { destruct Hinv as (_ & _ & Hps). apply productos_en_Forall2 in Hps.
    exact (Forall2_length _ _ _ Hps). }
  destruct (buscar_producto_cases _ self lp _ _ s Hinv' Hne)
    as [[Hnone _] | (i & w & q & Hi & Hq & Hkey & Hfirst & ->)].
  - exfalso. apply Forall_app in Hnone as [_ Hp].
    apply Forall_cons in Hp as [Hp _]. exact (Hp (eq_sym Hs)).
  - destruct (decide (i < length ps)%nat) as [Hlt | Hge].
    + exfalso. rewrite lookup_app_l in Hq by exact Hlt.
      rewrite Forall_lookup in Hall. apply (Hall i q Hq). congruence.
    + destruct (decide (i = length ps)) as [-> | Hne'].
      * rewrite <- Hlen in Hi. rewrite list_lookup_middle in Hi by reflexivity.
        injection Hi as <-. reflexivity.
      * exfalso. apply lookup_lt_Some in Hq. rewrite length_app in Hq.
        simpl in Hq. lia.
Qed.

Lemma agregar_luego_buscar_witness :
  buscar_producto 2%positive (VStr "  GADGET ")
    (snd (agregar_producto 2%positive (VRef 4%positive) widget_store))
  = (Ret (VRef 4%positive),
     snd (agregar_producto 2%positive (VRef 4%positive) widget_store)).
Proof.
  apply (agregar_luego_buscar 2%positive 1%positive [VRef 3%positive] [widget]
           4%positive gadget "  GADGET " widget_store widget_store_inventario).
  - reflexivity.
  - split; vm_compute; [reflexivity | discriminate].
  - constructor; [|constructor]. vm_compute. discriminate.
  - vm_compute. reflexivity.
Defined.

(** Adding never hides a product: whatever [agregar_producto] is given and
    however it ends, a search that returned a product before it returns the
    same product after it. *)
Theorem agregar_conserva_busqueda (self lp : loc) (items : list value)
    (ps : list Producto) (s : string) (w v : value) (h : heap) :
  inventario_en h self lp items ps ->
  buscar_producto self (VStr s) h = (Ret w, h) ->
  buscar_producto self (VStr s) (snd (agregar_producto self v h))
  = (Ret w, snd (agregar_producto self v h)).
Proof.
  intros Hinv Hfound.
  destruct (agregar_producto self v h) as [r h'] eqn:Hadd. simpl snd.
  destruct (agregar_producto_effect _ _ _ _ _ Hadd)
    as [-> | (lp' & xs & p & Hself & Hlp & Hp & _ & ->)]; [exact Hfound|].
  pose proof Hinv as (Hself' & Hlp' & Hps).
  rewrite Hself in Hself'. injection Hself' as ->.
  rewrite Hlp in Hlp'. injection Hlp' as ->.
  apply producto_en_inv in Hp as (l & -> & Hl).
  pose proof (inventario_en_append h self lp items ps l p Hinv Hl) as Hinv'.
  assert (Hne : Str.strip s <> EmptyString).
  { intros Hempty. revert Hfound. unfold buscar_producto.
    rewrite Hempty. discriminate. }
  destruct (buscar_producto_cases h self lp items ps s Hinv Hne)
    as [[_ Heq] | (i & w0 & q & Hi & Hq & Hkey & Hfirst & Heq)];
    rewrite Heq in Hfound; [discriminate|]. injection Hfound as ->.
  destruct (buscar_producto_cases _ self lp _ _ s Hinv' Hne)
    as [[Hnone _] | (j & w' & q' & Hj & Hq' & Hkey' & Hfirst' & ->)].
  - exfalso. rewrite Forall_lookup in Hnone.
    apply (Hnone i q); [|exact Hkey]. apply lookup_app_l_Some. exact Hq.
  - assert (Hij : j = i).
    { destruct (Nat.lt_trichotomy j i) as [Hlt | [Heq' | Hgt]]; [|exact Heq'|].
      - exfalso. apply (Hfirst j q' Hlt); [|exact Hkey'].
        rewrite lookup_app_l in Hq'; [exact Hq'|].
        apply lookup_lt_Some in Hq. lia.
      - exfalso. apply (Hfirst' i q Hgt); [|exact Hkey].
        apply lookup_app_l_Some. exact Hq. }
    subst j. rewrite (lookup_app_l_Some _ _ _ _ Hi) in Hj.
    injection Hj as <-. reflexivity.
Qed.

Lemma agregar_conserva_busqueda_witness :
  buscar_producto 2%positive (VStr "widget")
    (snd (agregar_producto 2%positive (VRef 4%positive) widget_store))
  = (Ret (VRef 3%positive),
     snd (agregar_producto 2%positive (VRef 4%positive) widget_store)).
Proof.
  apply (agregar_conserva_busqueda 2%positive 1%positive [VRef 3%positive]
           [widget] "widget" (VRef 3%positive) (VRef 4%positive) widget_store
           widget_store_inventario).
  vm_compute. reflexivity.
Defined.

(** In a reachable store the product a search returns is the only held
    product with that lower-cased name: every position of the list whose
    product matches the search holds the reference returned. *)
Theorem busqueda_unica (inv lp : loc) (items : list value)
    (ps : list Producto) (s : string) (w : value) (h : heap) :
  reachable inv h ->
  inventario_en h inv lp items ps ->
  buscar_producto inv (VStr s) h = (Ret w, h) ->
  forall j q, ps !! j = Some q -> clave q = Str.lower (Str.strip s) ->
    items !! j = Some w.
Proof.
  intros Hreach Hinv Hfound j q Hq Hkey.
  destruct (reachable_ok inv h Hreach)
    as (_ & lp' & items' & ps' & Hinv' & Hnodup).
  assert (Heqs : lp' = lp /\ items' = items /\ ps' = ps).
  { destruct Hinv as (H1 & H2 & H3), Hinv' as (H1' & H2' & H3').
    rewrite H1 in H1'. injection H1' as <-.
    rewrite H2 in H2'. injection H2' as <-.
    rewrite H3 in H3'. injection H3' as <-. auto. }
  destruct Heqs as (-> & -> & ->). clear Hinv'.
  assert (Hne : Str.strip s <> EmptyString).
  { intros Hempty. revert Hfound. unfold buscar_producto.
    rewrite Hempty. discriminate. }
  destruct (buscar_producto_cases h inv lp items ps s Hinv Hne)
    as [[_ Heq] | (i & w0 & q0 & Hi & Hq0 & Hkey0 & _ & Heq)];
    rewrite Heq in Hfound; [discriminate|]. injection Hfound as ->.
  assert (Hij : i = j).
  { apply (NoDup_lookup (clave <$> ps) i j (clave q0)); [exact Hnodup | |].
    - rewrite list_lookup_fmap, Hq0. reflexivity.
    - rewrite list_lookup_fmap, Hq. simpl. congruence. }
  subst j. exact Hi.
Qed.

Lemma busqueda_unica_witness :
  [VRef 3%positive; VRef 4%positive] !! 1%nat = Some (VRef 4%positive).
Proof.
  apply (busqueda_unica 2%positive 1%positive
           [VRef 3%positive; VRef 4%positive] [widget; gadget] " GADGET"
           (VRef 4%positive)
           (<[1%positive := OList [VRef 3%positive; VRef 4%positive]]> widget_store)
           reachable_two_products) with (q := gadget).
  - repeat split.
  - vm_compute. reflexivity.
  - reflexivity.
  - vm_compute. reflexivity.
Defined.

Lemma buscar_loop_key items k1 k2 :
  Str.lower k1 = Str.lower k2 ->
  forall h, buscar_loop items k1 h = buscar_loop items k2 h.
Proof.
  intros Hk. induction items as [|v items IH]; intros h; [reflexivity|].
  simpl. unfold bind. destruct (nombre v h) as [[n|e] h1]; [|reflexivity].
  rewrite Hk. destruct (String.eqb _ _); [reflexivity | apply IH].
Qed.

(** A search depends on its argument only through the lower-cased stripped
    text: two arguments that agree on it find the same product, or both
    find none. *)
Theorem busqueda_insensible (self : loc) (s1 s2 : string) (h : heap) :
  Str.lower (Str.strip s1) = Str.lower (Str.strip s2) ->
  (forall w, fst (buscar_producto self (VStr s1) h) = Ret w <->
             fst (buscar_producto self (VStr s2) h) = Ret w) /\
  (NotFound (fst (buscar_producto self (VStr s1) h)) <->
   NotFound (fst (buscar_producto self (VStr s2) h))).
Proof.
  intros Hk.
  assert (Hempty : Str.is_empty (Str.strip s1) = Str.is_empty (Str.strip s2)).
  { destruct (Str.strip s1), (Str.strip s2); try reflexivity; discriminate Hk. }
  unfold buscar_producto, NotFound. rewrite Hempty.
  destruct (Str.is_empty (Str.strip s2)).
  { split; [intros w|]; split; simpl; try discriminate;
      intros [msg H]; discriminate H. }
  unfold_M.
  destruct (h !! self) as [[| lp |]|];
    try (split; [intros w|]; split; simpl; try discriminate;
         intros [msg H]; discriminate H).
  destruct (h !! lp) as [[| | items]|];
    try (split; [intros w|]; split; simpl; try discriminate;
         intros [msg H]; discriminate H).
  rewrite (buscar_loop_key items _ _ Hk h).
  destruct (buscar_loop items (Str.strip s2) h) as [[[w'|]|e] h1]; simpl.
  - split; [tauto|]. split; intros [msg H]; discriminate H.
  - split; [intros w; split; discriminate|]. split; intros _; eexists; reflexivity.
  - split; [intros w; split; discriminate|]. tauto.
Qed.

Lemma busqueda_insensible_witness :
  (forall w, fst (buscar_producto 2%positive (VStr " widget ") widget_store) = Ret w <->
             fst (buscar_producto 2%positive (VStr "WIDGET") widget_store) = Ret w) /\
  (NotFound (fst (buscar_producto 2%positive (VStr " widget ") widget_store)) <->
   NotFound (fst (buscar_producto 2%positive (VStr "WIDGET") widget_store))).
Proof.
  apply (busqueda_insensible 2%positive " widget " "WIDGET" widget_store).
  vm_compute. reflexivity.
Defined.

(** ** Shared products, new inventories, overflow *)

Lemma productos_en_update h l p' items ps :
  is_Some (producto_en h (VRef l)) ->
  Forall2 (fun v q => producto_en h v = Some q) items ps ->
  exists ps',
    Forall2 (fun v q => producto_en (<[l := OProducto p']> h) v = Some q) items ps' /\
    forall j,
      (items !! j = Some (VRef l) -> ps' !! j = Some p') /\
      (forall l', items !! j = Some (VRef l') -> l' <> l -> ps' !! j = ps !! j).
Proof.
  intros _. induction 1 as [|v q items ps Hv Hrest (ps' & Hps' & Hat)].
  - exists []. split; [constructor|]. intros j. split; intros; discriminate.
  - apply producto_en_inv in Hv as (l0 & -> & Hl0).
    destruct (decide (l0 = l)) as [-> | Hne].
    + exists (p' :: ps'). split.
      * constructor; [|exact Hps']. simpl. rewrite lookup_insert_eq. reflexivity.
      * intros [|j]; simpl.
        -- split; [reflexivity|]. intros l' [= <-] Hl'. destruct (Hl' eq_refl).
        -- apply Hat.
    + exists (q :: ps'). split.
      * constructor; [|exact Hps']. simpl.
        rewrite lookup_insert_ne by congruence. rewrite Hl0. reflexivity.
      * intros [|j]; simpl.
        -- split; [intros [= Heq]; destruct (Hne Heq) | reflexivity].
        -- apply Hat.
Qed.

(** Products are shared with the inventory: after [actualizar_cantidad] on a
    product the inventory holds, with no call on the inventory, the
    inventory has the same list of references, the product at that position
    carries the new quantity, and the products behind other references are
    as before. *)
Theorem mutacion_compartida (self lp : loc) (items : list value)
    (ps : list Producto) (i : nat) (l : loc) (p : Producto) (n : Z) (h : heap) :
  inventario_en h self lp items ps ->
  items !! i = Some (VRef l) ->
  h !! l = Some (OProducto p) ->
  0 <= n ->
  exists ps',
    inventario_en (snd (actualizar_cantidad l (VInt n) h)) self lp items ps' /\
    ps' !! i = Some (mkProducto (_nombre p) (_precio p) n) /\
    forall j l', items !! j = Some (VRef l') -> l' <> l -> ps' !! j = ps !! j.
Proof.
  intros (Hself & Hlp & Hps) Hi Hl Hn.
  assert (Hrun : actualizar_cantidad l (VInt n) h
                 = (Ret tt, <[l := OProducto (mkProducto (_nombre p) (_precio p) n)]> h)).
  { unfold actualizar_cantidad. unfold_M. simpl.
    destruct (Z.ltb_spec n 0); [lia|]. rewrite Hl. reflexivity. }
  rewrite Hrun. simpl snd.
  apply productos_en_Forall2 in Hps.
  destruct (productos_en_update h l (mkProducto (_nombre p) (_precio p) n)
              items ps) as (ps' & Hps' & Hat); [|exact Hps|].
  { simpl. rewrite Hl. eauto. }
  exists ps'. split; [split; [|split]|split].
  - rewrite lookup_insert_ne; [exact Hself|]. intros ->. congruence.
  - rewrite lookup_insert_ne; [exact Hlp|]. intros ->. congruence.
  - apply productos_en_Forall2. exact Hps'.
  - apply (proj1 (Hat i) Hi).
  - intros j l' Hj Hne. exact (proj2 (Hat j) l' Hj Hne).
Qed.

Lemma mutacion_compartida_witness :
  exists ps',
    inventario_en (snd (actualizar_cantidad 3%positive (VInt 5) widget_store))
      2%positive 1%positive [VRef 3%positive] ps' /\
    ps' !! 0%nat = Some (mkProducto (_nombre widget) (_precio widget) 5) /\
    forall j l', [VRef 3%positive] !! j = Some (VRef l') -> l' <> 3%positive ->
                 ps' !! j = [widget] !! j.
Proof.
  apply (mutacion_compartida 2%positive 1%positive [VRef 3%positive] [widget]
           0%nat 3%positive widget 5 widget_store widget_store_inventario).
  - reflexivity.
  - reflexivity.
  - lia.
Defined.

(** [Inventario()] in any store: two new objects, every other object as it
    was, and an inventory that is empty: its value is the integer 0, every
    search with a non-empty name raises [KeyError], and listing returns a
    new empty list. *)
Theorem Inventario_init_vacio (h : heap) :
  exists inv lp h',
    Inventario_init h = (Ret inv, h') /\
    h !! inv = None /\ h !! lp = None /\
    (forall l, l <> inv -> l <> lp -> h' !! l = h !! l) /\
    inventario_en h' inv lp [] [] /\
    calcular_valor_inventario inv h' = (Ret (VInt 0), h') /\
    (forall s, Str.strip s <> EmptyString ->
       NotFound (fst (buscar_producto inv (VStr s) h')) /\
       snd (buscar_producto inv (VStr s) h') = h') /\
    (exists l, h' !! l = None /\
       listar_productos inv h' = (Ret l, <[l := OList []]> h')).
Proof.
  set (lp := fresh (dom h)).
  set (h1 := <[lp := OList []]> h).
  set (inv := fresh (dom h1)).
  set (h' := <[inv := OInventario lp]> h1).
  assert (Hlp : h !! lp = None) by apply fresh_lookup.
  assert (Hinv1 : h1 !! inv = None) by apply fresh_lookup.
  assert (Hne : inv <> lp).
  { intros Heq. rewrite Heq in Hinv1. unfold h1 in Hinv1.
    rewrite lookup_insert_eq in Hinv1. discriminate. }
  assert (Hinv : h !! inv = None).
  { unfold h1 in Hinv1. rewrite lookup_insert_ne in Hinv1 by congruence.
    exact Hinv1. }
  assert (Hself' : h' !! inv = Some (OInventario lp))
    by apply lookup_insert_eq.
  assert (Hlp' : h' !! lp = Some (OList [])).
  { unfold h'. rewrite lookup_insert_ne by exact Hne. apply lookup_insert_eq. }
  assert (Hen : inventario_en h' inv lp [] []) by (repeat split; assumption).
  exists inv, lp, h'. repeat split; try assumption.
  - intros l H1 H2. unfold h', h1. rewrite !lookup_insert_ne by congruence.
    reflexivity.
  - unfold calcular_valor_inventario. unfold_M. rewrite Hself', Hlp'. reflexivity.
  - destruct (buscar_producto_cases h' inv lp [] [] s Hen H)
      as [[_ ->] | (i & v & p & Hi & _)]; [eexists; reflexivity | discriminate].
  - destruct (buscar_producto_cases h' inv lp [] [] s Hen H)
      as [[_ ->] | (i & v & p & Hi & _)]; [reflexivity | discriminate].
  - exists (fresh (dom h')). split; [apply fresh_lookup|].
    unfold listar_productos, list_copy. unfold_M. rewrite Hself', Hlp'. reflexivity.
Qed.

Lemma Inventario_init_vacio_witness :
  exists inv lp h',
    Inventario_init widget_store = (Ret inv, h') /\
    widget_store !! inv = None /\ widget_store !! lp = None /\
    (forall l, l <> inv -> l <> lp -> h' !! l = widget_store !! l) /\
    inventario_en h' inv lp [] [] /\
    calcular_valor_inventario inv h' = (Ret (VInt 0), h') /\
    (forall s, Str.strip s <> EmptyString ->
       NotFound (fst (buscar_producto inv (VStr s) h')) /\
       snd (buscar_producto inv (VStr s) h') = h') /\
    (exists l, h' !! l = None /\
       listar_productos inv h' = (Ret l, <[l := OList []]> h')).
Proof. exact (Inventario_init_vacio widget_store). Defined.

Lemma sum_loop_overflow h items ps :
  Forall2 (fun v p => producto_en h v = Some p) items ps ->
  Exists cantidad_desbordada ps ->
  forall acc, acc = VInt 0 \/ (exists a, acc = VFloat a) ->
    sum_loop acc items h
    = (Raise (OverflowError "int too large to convert to float"), h).
Proof.
  induction 1 as [|v p items ps Hv Hrest IH]; intros Hex acc Hacc.
  - apply Exists_nil in Hex. destruct Hex.
  - apply producto_en_inv in Hv as (l & -> & Hl).
    cbn [sum_loop]. unfold bind. rewrite (calcular_valor_total_spec h l p Hl).
    unfold float_mul_int.
    destruct (Z.le_gt_cases Float.overflow_threshold (Z.abs (_cantidad p)))
      as [Hbig | Hsmall].
    + rewrite (float_of_int_overflow _ Hbig). reflexivity.
    + rewrite (float_of_int_in_range _ Hsmall). unfold lift.
      apply Exists_cons in Hex as [Hhead | Htail];
        [unfold cantidad_desbordada in Hhead; lia|].
      destruct Hacc as [-> | [a ->]]; cbn [py_add].
      * rewrite (float_of_int_in_range 0)
          by (pose proof overflow_threshold_pos; lia).
        apply IH; [exact Htail | right; eauto].
      * apply IH; [exact Htail | right; eauto].
Qed.

(** The value of the inventory cannot be computed as soon as one held
    product has a quantity that does not convert to a float (at least
    [2^1024 - 2^970]): [calcular_valor_inventario] raises [OverflowError]
    and leaves the store as it was. *)
Theorem calcular_valor_inventario_desborda (self lp : loc) (items : list value)
    (ps : list Producto) (h : heap) :
  inventario_en h self lp items ps ->
  Exists cantidad_desbordada ps ->
  calcular_valor_inventario self h
  = (Raise (OverflowError "int too large to convert to float"), h).
Proof.
  intros (Hself & Hlp & Hps) Hex.
  apply productos_en_Forall2 in Hps.
  unfold calcular_valor_inventario. unfold_M. rewrite Hself, Hlp.
  apply (sum_loop_overflow h items ps Hps Hex). left. reflexivity.
Qed.

Lemma calcular_valor_inventario_desborda_witness :
  calcular_valor_inventario 2%positive
    (<[3%positive := OProducto (mkProducto "Widget" f_9_99 (2 ^ 1024))]> widget_store)
  = (Raise (OverflowError "int too large to convert to float"),
     <[3%positive := OProducto (mkProducto "Widget" f_9_99 (2 ^ 1024))]> widget_store).
Proof.
  apply (calcular_valor_inventario_desborda 2%positive 1%positive
           [VRef 3%positive] [mkProducto "Widget" f_9_99 (2 ^ 1024)]).
  - repeat split.
  - constructor. vm_compute. discriminate.
Defined.

(** ** Values are never below zero *)









(** A list returned by [listar_productos] is a snapshot: a later
    [agregar_producto] on the same inventory, whatever it is given, leaves
    the returned list with the items it had. *)
Theorem listar_productos_snapshot (self lp : loc) (items : list value)
    (v : value) (h : heap) :
  h !! self = Some (OInventario lp) ->
  h !! lp = Some (OList items) ->
  exists l h1,
    listar_productos self h = (Ret l, h1) /\
    snd (agregar_producto self v h1) !! l = Some (OList items).
Proof.
  intros Hself Hlp.
  pose proof (fresh_lookup h) as Hfresh.
  exists (fresh (dom h)), (<[fresh (dom h) := OList items]> h).
  split.
  { unfold listar_productos, list_copy. unfold_M. rewrite Hself, Hlp. reflexivity. }
  set (l := fresh (dom h)) in *. set (h1 := <[l := OList items]> h).
  destruct (agregar_producto self v h1) as [r h2] eqn:Hadd. simpl snd.
  destruct (agregar_producto_effect _ _ _ _ _ Hadd)
    as [-> | (lp' & xs & p & Hself' & _ & _ & _ & ->)].
  - apply lookup_insert_eq.
  - assert (Hne : l <> self) by (intros Heq; rewrite Heq in Hfresh; congruence).
    unfold h1 in Hself'. rewrite lookup_insert_ne in Hself' by exact Hne.
    rewrite Hself in Hself'. injection Hself' as <-.
    rewrite lookup_insert_ne; [apply lookup_insert_eq|].
    intros <-. congruence.
Qed.

Lemma listar_productos_snapshot_witness :
  exists l h1,
    listar_productos 2%positive widget_store = (Ret l, h1) /\
    snd (agregar_producto 2%positive (VRef 4%positive) h1) !! l
    = Some (OList [VRef 3%positive]).
Proof.
  apply (listar_productos_snapshot 2%positive 1%positive [VRef 3%positive]
           (VRef 4%positive) widget_store); reflexivity.
Defined.

(** ** The store does not depend on the implementation of [sum] *)

Lemma sum_loop_neumaier_readonly items :
  forall st h, snd (sum_loop_neumaier st items h) = h.
Proof.
  induction items as [|v items IH]; intros st h; [reflexivity|].
  destruct v as [| | | | |l]; try reflexivity.
  cbn [sum_loop_neumaier]. unfold bind.
  pose proof (calcular_valor_total_readonly l h) as Hv.
  destruct (calcular_valor_total l h) as [[x|e] h1]; simpl in Hv; subst h1;
    [apply IH | reflexivity].
Qed.

(** Under either implementation the value of the inventory is computed
    without changing the store, so the stores a program reaches are the
    same under both. *)
Lemma calcular_valor_inventario_impl_readonly impl self h :
  snd (calcular_valor_inventario_impl impl self h) = h.
Proof.
  destruct impl; [apply calcular_valor_inventario_readonly|].
  cbn [calcular_valor_inventario_impl]. unfold_M.
  destruct (h !! self) as [[| lp |]|]; try reflexivity.
  destruct (h !! lp) as [[| | items]|]; try reflexivity.
  destruct items as [|v items]; [reflexivity|].
  destruct v as [| | | | |l]; try reflexivity.
  cbn [sum_neumaier]. unfold bind.
  pose proof (calcular_valor_total_readonly l h) as Hv.
  destruct (calcular_valor_total l h) as [[x|e] h1]; simpl in Hv; subst h1;
    [|reflexivity].
  unfold lift. cbn [py_add].
  destruct (float_of_int 0) as [f|e]; [|reflexivity].
  apply sum_loop_neumaier_readonly.
Qed.
